(** * Tardy: the working-time tracker of [src/app/page.tsx]

    A shallow embedding of the component's state, its event handlers, the
    values it derives for display and its persistence functions, followed by
    the properties the specification states about them.

    Conventions of the embedding.
    - A JavaScript [Date] is its time value: the number of milliseconds since
      the epoch, a [Z].  The local time zone is a function [tz] giving, for an
      instant, the offset in milliseconds of local wall-clock time from UTC.
    - A JavaScript [number] that holds a measured quantity (hours, a rate) is
      an IEEE 754 binary64 value, Rocq's primitive [float].  A [number] that
      holds a count of seconds or milliseconds is a [Z]; double arithmetic on
      such counts is exact below 2^53.
    - [React] state is a record; an event handler is a function from the state
      of the render it closes over to the state after its updates. *)

From Stdlib Require Import ZArith Lia Floats String Ascii.
From Stdlib Require Import DecimalString DecimalZ DecimalPos DecimalFacts.
From Stdlib Require Import QArith Qabs.
From stdpp Require Import base list.

#[local] Open Scope Z_scope.
#[local] Set Warnings "-inexact-float".

(* ------------------------------------------------------------------------- *)
(** ** JavaScript built-ins used by the component *)

Module Js.

(** What a call produces: a value, or one of the two exceptions the
    persistence code can raise. *)
Inductive exn := SyntaxError | RangeError.

Inductive outcome (A : Type) :=
| Return (a : A)
| Throw (e : exn).
Arguments Return {A} a.
Arguments Throw {A} e.

Definition bind {A B} (m : outcome A) (k : A -> outcome B) : outcome B :=
  match m with
  | Return a => k a
  | Throw e => Throw e
  end.

(** Truthiness of a value that is an object or [null]. *)
Definition isSet {A} (o : option A) : bool :=
  match o with Some _ => true | None => false end.

(** Conversion of an integer count to a [number]: the double nearest to [z],
    ties to even; exact below 2^53 in magnitude. *)
Definition float_of_Z (z : Z) : float :=
  SF2Prim (binary_normalize prec emax z 0 false).

(** [String.prototype.padStart(n, c)] for a one-character filler. *)
Definition padStart (n : nat) (c : ascii) (s : string) : string :=
  String.append (string_of_list_ascii (replicate (n - String.length s) c)) s.

(** [Number.prototype.toString()] on an integer. *)
Definition toString (z : Z) : string :=
  NilZero.string_of_int (Z.to_int z).

(** [arr[i] = v] on a copy of [arr]: in range the slot is replaced; past the
    end the array grows, and the slots in between are holes, which read as
    [undefined] and act as NaN in arithmetic. *)
Definition array_set (arr : list float) (i : nat) (v : float) : list float :=
  if (i <? length arr)%nat then <[i := v]> arr
  else arr ++ replicate (i - length arr) PrimFloat.nan ++ [v].

Section LocalTime.
(** Offset of local time from UTC at an instant, in milliseconds. *)
Variable tz : Z -> Z.

Definition msPerDay : Z := 86400000.
Definition msPerHour : Z := 3600000.

Definition localTime (t : Z) : Z := t + tz t.

(** [Date.prototype.getDay()]: 0 is Sunday; the epoch was a Thursday. *)
Definition getDay (t : Z) : Z := (localTime t / msPerDay + 4) mod 7.

(** [Date.prototype.getHours()]. *)
Definition getHours (t : Z) : Z := (localTime t / msPerHour) mod 24.
End LocalTime.

(** *** [Number.prototype.toFixed] *)

(** The integer [n] for which [n / 10^f] is closest to [m * 2^e], the larger
    one on a tie. *)
Definition nearestScaled (f : nat) (m : positive) (e : Z) : Z :=
  let scaled := Zpos m * 10 ^ Z.of_nat f in
  if 0 <=? e then scaled * 2 ^ e
  else (2 * scaled + 2 ^ (- e)) / 2 ^ (- e + 1).

(** [10^21 <= m * 2^e], the threshold from which [toFixed] falls back to
    [Number::toString]. *)
Definition atLeast1e21 (m : positive) (e : Z) : bool :=
  if 0 <=? e then 10 ^ 21 <=? Zpos m * 2 ^ e
  else 10 ^ 21 * 2 ^ (- e) <=? Zpos m.

(** The digits of [n], padded to [f + 1] places, with a point before the
    last [f] of them. *)
Definition fixedDigits (f : nat) (n : Z) : string :=
  let m := padStart (f + 1) "0" (toString n) in
  let k := String.length m in
  match f with
  | O => m
  | _ => (substring 0 (k - f) m ++ "." ++ substring (k - f) f m)%string
  end.

(** [x.toFixed(f)].  [None] stands for the result on a finite [x] of
    magnitude [10^21] or more: there the method returns [Number::toString(x)],
    a string in exponent notation such as [4e+22], which is not modelled. *)
Definition toFixed (f : nat) (x : float) : option string :=
  match Prim2SF x with
  | S754_nan => Some "NaN"%string
  | S754_infinity false => Some "Infinity"%string
  | S754_infinity true => Some "-Infinity"%string
  | S754_zero _ => Some (fixedDigits f 0)
  | S754_finite sign m e =>
      if atLeast1e21 m e then None
      else Some ((if sign then "-" else "") ++ fixedDigits f (nearestScaled f m e))%string
  end.

(** *** Double arithmetic on any number: [Math.floor], [%] and
    [Number::toString] *)

(** The double nearest to [mantissa * 10^scale], for a positive mantissa. *)
Definition decimalToNumber (mantissa : positive) (scale : Z) : float :=
  if 0 <=? scale
  then SF2Prim (binary_normalize prec emax (Zpos mantissa * 10 ^ scale) 0 false)
  else SF2Prim (SFdiv prec emax (S754_finite false mantissa 0)
                  (S754_finite false (Z.to_pos (10 ^ (- scale))) 0)).

(** [Math.floor]. *)
Definition Math_floor (x : float) : float :=
  match Prim2SF x with
  | S754_finite sign m e =>
      if 0 <=? e then x
      else float_of_Z ((if sign then Zneg m else Zpos m) / 2 ^ (- e))
  | _ => x
  end.

(** The remainder operator [%]: the sign of the dividend, computed exactly. *)
Definition remainder (x y : float) : float :=
  match Prim2SF x, Prim2SF y with
  | S754_nan, _ | _, S754_nan => nan
  | S754_infinity _, _ => nan
  | _, S754_zero _ => nan
  | S754_zero _, _ => x
  | S754_finite _ _ _, S754_infinity _ => x
  | S754_finite sx mx ex, S754_finite _ my ey =>
      let e := Z.min ex ey in
      let r := Z.rem (Zpos mx * 2 ^ (ex - e)) (Zpos my * 2 ^ (ey - e)) in
      if r =? 0 then (if sx then (-0)%float else 0%float)
      else SF2Prim (binary_normalize prec emax (if sx then - r else r) e false)
  end.

(** The number of decimal digits of a positive integer. *)
Definition digitCount (n : Z) : Z := Z.of_nat (String.length (toString n)).

(** The [n] of [Number::toString] for the positive rational [num / den]:
    [10^(n-1) <= num / den < 10^n]. *)
Fixpoint leadingZeros (fuel : nat) (num den : Z) (j : Z) : Z :=
  match fuel with
  | O => j
  | S fuel' => if den <=? num * 10 ^ j then j else leadingZeros fuel' num den (j + 1)
  end.

Definition decimalExponent (num den : Z) : Z :=
  if den <=? num then digitCount (num / den)
  else 1 - leadingZeros 400 num den 1.

(** The shortest digits: the least [k] for which some [s] of [k] digits has
    [s * 10^(n-k)] convert to [x], and of two such [s] the closer to [x]. *)
Fixpoint shortestDigits (fuel : nat) (x : float) (num den n k : Z) : Z * Z * Z :=
  let p := n - k in
  (* num / den / 10^p, as a fraction *)
  let '(a, b) := if 0 <=? p then (num, den * 10 ^ p) else (num * 10 ^ (- p), den) in
  let lo := a / b in
  let hi := lo + 1 in
  let fits s := match s with
                | Zpos sp => PrimFloat.eqb (decimalToNumber sp p) x
                | _ => false
                end in
  let closerHi := b <? 2 * (a - lo * b) in
  let pick := if fits lo && fits hi then (if closerHi then Some hi else Some lo)
              else if fits lo then Some lo
              else if fits hi then Some hi else None in
  match pick, fuel with
  | Some s, _ => if s =? 10 ^ k then (10 ^ (k - 1), k, n + 1) else (s, k, n)
  | None, O => (lo, k, n)
  | None, S fuel' => shortestDigits fuel' x num den n (k + 1)
  end.

Definition zeros (count : Z) : string :=
  string_of_list_ascii (replicate (Z.to_nat count) "0"%char).

(** [Number::toString] in radix 10. *)
Definition numberToString (x : float) : string :=
  match Prim2SF x with
  | S754_nan => "NaN"
  | S754_infinity false => "Infinity"
  | S754_infinity true => "-Infinity"
  | S754_zero _ => "0"
  | S754_finite sign m e =>
      let '(num, den) := if 0 <=? e then (Zpos m * 2 ^ e, 1) else (Zpos m, 2 ^ (- e)) in
      let n0 := decimalExponent num den in
      let '(s, k, n) := shortestDigits 17 (abs x) num den n0 1 in
      let digits := toString s in
      let body :=
        if ((k <=? n) && (n <=? 21))%Z then (digits ++ zeros (n - k))%string
        else if ((0 <? n) && (n <=? 21))%Z then
          (substring 0 (Z.to_nat n) digits ++ "." ++
           substring (Z.to_nat n) (Z.to_nat (k - n)) digits)%string
        else if ((-6 <? n) && (n <=? 0))%Z then
          ("0." ++ zeros (- n) ++ digits)%string
        else
          let ex := ((if (n - 1 <? 0)%Z then "-" else "+") ++ toString (Z.abs (n - 1)))%string in
          if (k =? 1)%Z then (digits ++ "e" ++ ex)%string
          else (substring 0 1 digits ++ "." ++
                substring 1 (Z.to_nat (k - 1)) digits ++ "e" ++ ex)%string in
      ((if sign then "-" else "") ++ body)%string
  end.

(** *** [Date.prototype.toISOString] *)

(** Year, month (1..12) and day of the month of a day number counted from
    the epoch, in the proleptic Gregorian calendar. *)
Definition civilFromDays (days : Z) : Z * Z * Z :=
  let z := days + 719468 in
  let era := z / 146097 in
  let doe := z - era * 146097 in
  let yoe := (doe - doe / 1460 + doe / 36524 - doe / 146096) / 365 in
  let doy := doe - (365 * yoe + yoe / 4 - yoe / 100) in
  let mp := (5 * doy + 2) / 153 in
  let d := doy - (153 * mp + 2) / 5 + 1 in
  let m := if mp <? 10 then mp + 3 else mp - 9 in
  let y := yoe + era * 400 + (if m <=? 2 then 1 else 0) in
  (y, m, d).

(** The day number of a calendar date, the inverse of [civilFromDays]. *)
Definition daysFromCivil (y m d : Z) : Z :=
  let y' := if m <=? 2 then y - 1 else y in
  let era := y' / 400 in
  let yoe := y' - era * 400 in
  let mp := if 2 <? m then m - 3 else m + 9 in
  let doy := (153 * mp + 2) / 5 + d - 1 in
  let doe := yoe * 365 + yoe / 4 - yoe / 100 + doy in
  era * 146097 + doe - 719468.

Definition pad (n : nat) (z : Z) : string := padStart n "0" (toString z).

(** Four digits for the years 0 to 9999, otherwise a sign and six digits. *)
Definition isoYear (y : Z) : string :=
  if ((0 <=? y) && (y <=? 9999))%Z then pad 4 y
  else ((if (y <? 0)%Z then "-" else "+") ++ pad 6 (Z.abs y))%string.

(** The largest magnitude of a time value: 8.64e15 ms. *)
Definition maxTime : Z := 8640000000000000.

Definition validTime (t : Z) : Prop := - maxTime <= t <= maxTime.

(** [d.toISOString()] for a date whose time value is [t]. *)
Definition isoOfTime (t : Z) : string :=
  let '(y, mo, d) := civilFromDays (t / msPerDay) in
  let r := t mod msPerDay in
  (isoYear y ++ "-" ++ pad 2 mo ++ "-" ++ pad 2 d ++ "T" ++
   pad 2 (r / msPerHour) ++ ":" ++ pad 2 (r / 60000 mod 60) ++ ":" ++
   pad 2 (r / 1000 mod 60) ++ "." ++ pad 3 (r mod 1000) ++ "Z")%string.

(** [toISOString] on the date [new Date(...)] produced: an Invalid Date
    ([None]) raises a [RangeError]. *)
Definition toISOString (d : option Z) : outcome string :=
  match d with
  | Some t => Return (isoOfTime t)
  | None => Throw RangeError
  end.

(** [differenceInSeconds] of date-fns: the difference in milliseconds over
    1000, truncated towards zero. *)
Definition differenceInSeconds (later earlier : Z) : Z :=
  Z.quot (later - earlier) 1000.

End Js.

(* ------------------------------------------------------------------------- *)
(** ** The component *)

(** The persisted record, [StoredData]. *)
Record StoredData := mkStoredData {
  sd_clockInTime : option string;
  sd_clockOutTime : option string;
  sd_totalWorkedToday : Z;
  sd_weeklyHours : list float;
  sd_hourlyRate : float
}.

(** The [useState] cells of [Component]. *)
Record State := mkState {
  currentTime : Z;
  clockInTime : option Z;
  clockOutTime : option Z;
  totalWorkedToday : Z;
  weeklyHours : list float;
  hourlyRate : float
}.

Definition getInitialData : StoredData :=
  {| sd_clockInTime := None;
     sd_clockOutTime := None;
     sd_totalWorkedToday := 0;
     sd_weeklyHours := [0; 0; 0; 0; 0]%float;
     sd_hourlyRate := 15%float |}.

(** The state of the first render, at instant [now]. *)
Definition initialState (now : Z) : State :=
  {| currentTime := now;
     clockInTime := None;
     clockOutTime := None;
     totalWorkedToday := 0;
     weeklyHours := [0; 0; 0; 0; 0]%float;
     hourlyRate := 15%float |}.

(** An active session: clocked in and not clocked out. *)
Definition activeSession (s : State) : Prop :=
  is_Some (clockInTime s) /\ clockOutTime s = None.

Definition activeSessionb (s : State) : bool :=
  match clockInTime s, clockOutTime s with
  | Some _, None => true
  | _, _ => false
  end.

Definition handleClockIn (now : Z) (s : State) : State :=
  {| currentTime := currentTime s;
     clockInTime := Some now;
     clockOutTime := None;
     totalWorkedToday := 0;
     weeklyHours := weeklyHours s;
     hourlyRate := hourlyRate s |}.

(** The display timer: [setCurrentTime(new Date())]. *)
Definition displayTick (now : Z) (s : State) : State :=
  {| currentTime := now;
     clockInTime := clockInTime s;
     clockOutTime := clockOutTime s;
     totalWorkedToday := totalWorkedToday s;
     weeklyHours := weeklyHours s;
     hourlyRate := hourlyRate s |}.

(** The worked-time timer, installed only while a session is active:
    [setTotalWorkedToday((prevTotal) => prevTotal + 1)]. *)
Definition workedTick (s : State) : State :=
  {| currentTime := currentTime s;
     clockInTime := clockInTime s;
     clockOutTime := clockOutTime s;
     totalWorkedToday := totalWorkedToday s + 1;
     weeklyHours := weeklyHours s;
     hourlyRate := hourlyRate s |}.

(** The rate input: [setHourlyRate(Number(e.target.value))]. *)
Definition setHourlyRate (r : float) (s : State) : State :=
  {| currentTime := currentTime s;
     clockInTime := clockInTime s;
     clockOutTime := clockOutTime s;
     totalWorkedToday := totalWorkedToday s;
     weeklyHours := weeklyHours s;
     hourlyRate := r |}.

Section Component.
Variable tz : Z -> Z.

(** The slot of [weeklyHours] a clock-out at [now] writes, if any:
    [todayIndex = now.getDay() - 1] when [0 <= todayIndex < 5]. *)
Definition todayIndex (now : Z) : Z := Js.getDay tz now - 1.

Definition weeklyAfterClockOut (now : Z) (s : State) : list float :=
  match clockInTime s with
  | Some cin =>
      let idx := todayIndex now in
      if (0 <=? idx) && (idx <? 5) then
        let workedToday :=
          (Js.float_of_Z (Js.differenceInSeconds now cin) / 3600)%float in
        Js.array_set (weeklyHours s) (Z.to_nat idx) workedToday
      else weeklyHours s
  | None => weeklyHours s
  end.

Definition handleClockOut (now : Z) (s : State) : State :=
  {| currentTime := currentTime s;
     clockInTime := clockInTime s;
     clockOutTime := Some now;
     totalWorkedToday := totalWorkedToday s;
     weeklyHours := weeklyAfterClockOut now s;
     hourlyRate := hourlyRate s |}.

Definition isWorkingHours (s : State) : bool :=
  (9 <=? Js.getHours tz (currentTime s)) && (Js.getHours tz (currentTime s) <? 17).

Definition isWeekday (s : State) : bool :=
  (0 <? Js.getDay tz (currentTime s)) && (Js.getDay tz (currentTime s) <? 6).

(** The [disabled] props of the two buttons; a [Date] object is truthy. *)
Definition clockInDisabled (s : State) : bool :=
  Js.isSet (clockInTime s) || negb (isWorkingHours s) || negb (isWeekday s).

Definition clockOutDisabled (s : State) : bool :=
  negb (Js.isSet (clockInTime s)) || Js.isSet (clockOutTime s).
End Component.

(** [formatTime] on a whole number of seconds below 2^53 in magnitude, where
    the double arithmetic of the source is exact: hours by floor division,
    minutes and seconds through the remainder operator [%], each padded to
    two characters.  [formatTimeNumber] below is the function on any number. *)
Definition formatTime (seconds : Z) : string :=
  let hours := seconds / 3600 in
  let minutes := Z.rem seconds 3600 / 60 in
  let remainingSeconds := Z.rem seconds 60 in
  (Js.padStart 2 "0" (Js.toString hours) ++ ":" ++
   Js.padStart 2 "0" (Js.toString minutes) ++ ":" ++
   Js.padStart 2 "0" (Js.toString remainingSeconds))%string.

(** [formatTime] on any number, in the double arithmetic of the source:
    [Math.floor(seconds / 3600)], [Math.floor((seconds % 3600) / 60)],
    [seconds % 60], each through [toString] and [padStart]. *)
Definition formatTimeNumber (seconds : float) : string :=
  let hours := Js.Math_floor (seconds / 3600) in
  let minutes := Js.Math_floor (Js.remainder seconds 3600 / 60) in
  let remainingSeconds := Js.remainder seconds 60 in
  (Js.padStart 2 "0" (Js.numberToString hours) ++ ":" ++
   Js.padStart 2 "0" (Js.numberToString minutes) ++ ":" ++
   Js.padStart 2 "0" (Js.numberToString remainingSeconds))%string.

(** The number [calculateWeeklyEarnings] passes to [toFixed(2)]. *)
Definition weeklyTotal (s : State) : float :=
  fold_left (fun total hours => (total + hours * hourlyRate s)%float)
            (weeklyHours s) 0%float.

(* ------------------------------------------------------------------------- *)
(** ** Persistence *)

(** [dataToStore] of the save effect: [d?.toISOString() || null]. *)
Definition isoOrNull (d : option Z) : option string :=
  match d with
  | Some t => let str := Js.isoOfTime t in
              if String.eqb str "" then None else Some str
  | None => None
  end.

Definition dataToStore (s : State) : StoredData :=
  {| sd_clockInTime := isoOrNull (clockInTime s);
     sd_clockOutTime := isoOrNull (clockOutTime s);
     sd_totalWorkedToday := totalWorkedToday s;
     sd_weeklyHours := weeklyHours s;
     sd_hourlyRate := hourlyRate s |}.

Section Persistence.
(** [JSON.parse] at the type the source gives its result, [StoredData];
    [None] is a [SyntaxError].  Texts that parse to a value of another
    shape (such as [null], on which the source raises a [TypeError]) are
    outside this type.  [JSON.stringify] on such a record.
    [Date.parse] on a string; [None] is the time value NaN. *)
Variable JSON_parse : string -> option StoredData.
Variable JSON_stringify : StoredData -> string.
Variable Date_parse : string -> option Z.

(** [ts ? new Date(ts).toISOString() : null]; the empty string is falsy. *)
Definition normalizeTime (ts : option string) : Js.outcome (option string) :=
  match ts with
  | None => Js.Return None
  | Some str =>
      if String.eqb str "" then Js.Return None
      else Js.bind (Js.toISOString (Date_parse str))
                   (fun iso => Js.Return (Some iso))
  end.

(** The object [loadStoredData] returns once the record is parsed; the two
    properties are evaluated in the order written. *)
Definition normalizeStored (data : StoredData) : Js.outcome StoredData :=
  Js.bind (normalizeTime (sd_clockInTime data)) (fun cin =>
  Js.bind (normalizeTime (sd_clockOutTime data)) (fun cout =>
  Js.Return {| sd_clockInTime := cin;
               sd_clockOutTime := cout;
               sd_totalWorkedToday := sd_totalWorkedToday data;
               sd_weeklyHours := sd_weeklyHours data;
               sd_hourlyRate := sd_hourlyRate data |})).

(** [loadStoredData].  [hasWindow] is [typeof window !== 'undefined'];
    [stored] is what [localStorage.getItem(STORAGE_KEY)] returns, [None] for
    [null].  [!stored] holds for [null] and for the empty string. *)
Definition loadStoredData (hasWindow : bool) (stored : option string)
  : Js.outcome StoredData :=
  if negb hasWindow then Js.Return getInitialData
  else match stored with
       | None => Js.Return getInitialData
       | Some text =>
           if String.eqb text "" then Js.Return getInitialData
           else match JSON_parse text with
                | None => Js.Throw Js.SyntaxError
                | Some data => normalizeStored data
                end
       end.

(** [saveToStorage]: the text [localStorage.setItem] puts under the key. *)
Definition saveToStorage (data : StoredData) : string := JSON_stringify data.

(** [if (ts) setX(new Date(ts))]: the cell after the statement.  The outer
    [None] stands for an Invalid Date entering the state; [State] holds valid
    dates only. *)
Definition loadTime (ts : option string) (cell : option Z) : option (option Z) :=
  match ts with
  | None => Some cell
  | Some str =>
      if String.eqb str "" then Some cell
      else match Date_parse str with
           | Some t => Some (Some t)
           | None => None
           end
  end.

(** The setters of the load effect, applied to the state [s]. *)
Definition loadEffect (storedData : StoredData) (s : State) : option State :=
  match loadTime (sd_clockInTime storedData) (clockInTime s),
        loadTime (sd_clockOutTime storedData) (clockOutTime s) with
  | Some cin, Some cout =>
      Some {| currentTime := currentTime s;
              clockInTime := cin;
              clockOutTime := cout;
              totalWorkedToday := sd_totalWorkedToday storedData;
              weeklyHours := sd_weeklyHours storedData;
              hourlyRate := sd_hourlyRate storedData |}
  | _, _ => None
  end.

(** Mounting the component at [now] over the storage cell [stored]: the load
    effect runs on the state of the first render. *)
Definition mount (now : Z) (stored : option string) : Js.outcome (option State) :=
  Js.bind (loadStoredData true stored) (fun storedData =>
  Js.Return (loadEffect storedData (initialState now))).
End Persistence.

Definition calculateWeeklyEarnings (s : State) : option string :=
  Js.toFixed 2 (weeklyTotal s).

(** The magnitude of a finite [number] as a rational: [m * 2^e]. *)
Definition floatMagnitude (x : float) : option Q :=
  match Prim2SF x with
  | S754_zero _ => Some 0%Q
  | S754_finite _ m e =>
      Some (if 0 <=? e then inject_Z (Zpos m * 2 ^ e)
            else Qmake (Zpos m) (Z.to_pos (2 ^ (- e))))
  | _ => None
  end.

(** The sign [toFixed] prints: a minus for a number below zero. *)
Definition floatSign (x : float) : string :=
  match Prim2SF x with
  | S754_finite true _ _ => "-"
  | _ => ""
  end.

(** A state whose week holds five days of eight hours at the given rate. *)
Definition fullWeek (rate : float) : State :=
  {| currentTime := 0;
     clockInTime := None;
     clockOutTime := None;
     totalWorkedToday := 0;
     weeklyHours := [8; 8; 8; 8; 8]%float;
     hourlyRate := rate |}.

(** *** Reading formatted output back *)

(** The value of a decimal digit, from its character code (48 to 57). *)
Definition digitOf (c : ascii) : option Z :=
  let code := Z.of_N (N_of_ascii c) in
  if (48 <=? code) && (code <=? 57) then Some (code - 48) else None.

Fixpoint digitsValue (acc : Z) (str : string) : option Z :=
  match str with
  | EmptyString => Some acc
  | String c rest =>
      match digitOf c with
      | Some d => digitsValue (10 * acc + d) rest
      | None => None
      end
  end.

(** The number a string of decimal digits denotes; [None] when a character
    is not a digit. *)
Definition decimalValue (str : string) : option Z := digitsValue 0 str.

(* ------------------------------------------------------------------------- *)
(** ** The component over time

    The page and its storage cell as a transition system.  The cell holds the
    JSON text of a [StoredData] record; the system keeps the record itself,
    taking [JSON.parse] of the text to return the record written.  That is
    so for the timestamps, the count of seconds and every finite number but
    negative zero, which JSON writes [0] (see [save_load_negative_zero]).
    Only the component writes the cell. *)

Record System := mkSystem {
  comp : State;
  stored : option StoredData
}.

(** What the user and the timers can do.  [Mount] is a load of the page: the
    state starts afresh and the load effect reads the cell. *)
Inductive event :=
| Mount (now : Z)
| ClockIn (now : Z)
| ClockOut (now : Z)
| DisplayTick (now : Z)
| WorkedTick
| RateEdit (rate : float).

(** The first run: nothing stored, the state of the first render. *)
Definition initialSystem (now : Z) : System :=
  {| comp := initialState now; stored := None |}.

(** The save effect after a change of a persisted cell. *)
Definition saved (c : State) : System :=
  {| comp := c; stored := Some (dataToStore c) |}.

Section Machine.
Variable tz : Z -> Z.
Variable Date_parse : string -> option Z.

(** [loadStoredData] on the record the cell holds. *)
Definition loadRecord (cell : option StoredData) : Js.outcome StoredData :=
  match cell with
  | None => Js.Return getInitialData
  | Some data => normalizeStored Date_parse data
  end.

(** One event; [None] when the button is disabled, the timer is not
    installed, or the load raises. *)
Definition fire (e : event) (sys : System) : option System :=
  match e with
  | Mount now =>
      match loadRecord (stored sys) with
      | Js.Return data =>
          match loadEffect Date_parse data (initialState now) with
          | Some c => Some (saved c)
          | None => None
          end
      | Js.Throw _ => None
      end
  | ClockIn now =>
      if clockInDisabled tz (comp sys) then None
      else Some (saved (handleClockIn now (comp sys)))
  | ClockOut now =>
      if clockOutDisabled (comp sys) then None
      else Some (saved (handleClockOut tz now (comp sys)))
  | DisplayTick now =>
      Some {| comp := displayTick now (comp sys); stored := stored sys |}
  | WorkedTick =>
      if activeSessionb (comp sys) then Some (saved (workedTick (comp sys)))
      else None
  | RateEdit rate => Some (saved (setHourlyRate rate (comp sys)))
  end.

Fixpoint run (es : list event) (sys : System) : option System :=
  match es with
  | [] => Some sys
  | e :: es' =>
      match fire e sys with
      | Some sys' => run es' sys'
      | None => None
      end
  end.

(** The states some sequence of events leads to from a first run. *)
Definition reachable (sys : System) : Prop :=
  exists (now : Z) (es : list event), run es (initialSystem now) = Some sys.
End Machine.

(** The invariant: five entries in the state and in the stored record. *)
Definition fiveEntries (sys : System) : Prop :=
  length (weeklyHours (comp sys)) = 5%nat /\
  forall d, stored sys = Some d -> length (sd_weeklyHours d) = 5%nat.

(** The cell mirrors the component, or nothing was ever stored and no
    session was started. *)
Definition mirrored (sys : System) : Prop :=
  stored sys = Some (dataToStore (comp sys)) \/
  (stored sys = None /\ clockInTime (comp sys) = None /\ clockOutTime (comp sys) = None).

(* ------------------------------------------------------------------------- *)
(** ** A reference implementation of the built-ins taken as parameters

    [Date.parse] and the two [JSON] functions are parameters of the
    persistence code above.  The functions of this module are one
    implementation of them, on the texts the component itself writes: dates in
    the complete UTC form of the ECMAScript date-time format, and records as
    one JSON object with the five properties in the order of [StoredData].
    They serve to evaluate the persistence code on concrete inputs. *)

Module Ref.

Definition fieldAt (str : string) (pos len : nat) : option Z :=
  digitsValue 0 (substring pos len str).

Definition sepAt (str : string) (pos : nat) (c : ascii) : bool :=
  String.eqb (substring pos 1 str) (String c "").

(** The part after the year, [-MM-DDTHH:mm:ss.sssZ], for the year [y]. *)
Definition parseAfterYear (y : Z) (rest : string) : option Z :=
  if (String.length rest =? 20)%nat && sepAt rest 0 "-" && sepAt rest 3 "-"
     && sepAt rest 6 "T" && sepAt rest 9 ":" && sepAt rest 12 ":"
     && sepAt rest 15 "." && sepAt rest 19 "Z"
  then
    match fieldAt rest 1 2, fieldAt rest 4 2, fieldAt rest 7 2,
          fieldAt rest 10 2, fieldAt rest 13 2, fieldAt rest 16 3 with
    | Some mo, Some d, Some h, Some mi, Some sec, Some ms =>
        let days := Js.daysFromCivil y mo d in
        let t := days * Js.msPerDay + h * Js.msPerHour + mi * 60000
                 + sec * 1000 + ms in
        if (1 <=? mo) && (mo <=? 12) && (1 <=? d) && (d <=? 31)
           && (let '(y', mo', d') := Js.civilFromDays days in
               (y' =? y) && (mo' =? mo) && (d' =? d))
           && (h <=? 23) && (mi <=? 59) && (sec <=? 59)
           && (- Js.maxTime <=? t) && (t <=? Js.maxTime)
        then Some t else None
    | _, _, _, _, _, _ => None
    end
  else None.

Definition Date_parse (str : string) : option Z :=
  match str with
  | String "+" rest =>
      match fieldAt rest 0 6 with
      | Some y => parseAfterYear y (substring 6 (String.length rest - 6) rest)
      | None => None
      end
  | String "-" rest =>
      match fieldAt rest 0 6 with
      | Some y => if y =? 0 then None
                  else parseAfterYear (- y) (substring 6 (String.length rest - 6) rest)
      | None => None
      end
  | _ =>
      match fieldAt str 0 4 with
      | Some y => parseAfterYear y (substring 4 (String.length str - 4) str)
      | None => None
      end
  end.

(** *** JSON text of a [StoredData] record *)

Definition dquote : ascii := "034"%char.
Definition backslash : ascii := "092"%char.

(** A string literal: the characters between quotes, with a backslash before
    a quote or a backslash. *)
Fixpoint escape (str : string) : string :=
  match str with
  | EmptyString => EmptyString
  | String c rest =>
      if Ascii.eqb c dquote || Ascii.eqb c backslash
      then String backslash (String c (escape rest))
      else String c (escape rest)
  end.

Definition printString (str : string) : string :=
  String dquote (escape str ++ String dquote "").

Definition printNullable (o : option string) : string :=
  match o with
  | Some str => printString str
  | None => "null"
  end.

Fixpoint stripZeros (str : string) : string :=
  match str with
  | EmptyString => EmptyString
  | String c rest =>
      match stripZeros rest with
      | EmptyString => if Ascii.eqb c "0" then EmptyString else String c EmptyString
      | rest' => String c rest'
      end
  end.

(** A number, written exactly: [m * 2^e] has a finite decimal expansion.
    NaN and the infinities are written [null], as [JSON.stringify] does, and
    both zeros [0]. *)
Definition printNumber (x : float) : string :=
  match Prim2SF x with
  | S754_zero _ => "0"
  | S754_finite sign m e =>
      let body :=
        if 0 <=? e then Js.toString (Zpos m * 2 ^ e)
        else
          let k := Z.to_nat (- e) in
          let digits := Js.padStart (k + 1) "0" (Js.toString (Zpos m * 5 ^ (- e))) in
          let ip := substring 0 (String.length digits - k) digits in
          let fp := stripZeros (substring (String.length digits - k) k digits) in
          match fp with
          | EmptyString => ip
          | _ => (ip ++ "." ++ fp)%string
          end in
      ((if sign then "-" else "") ++ body)%string
  | _ => "null"
  end.

Fixpoint printNumbers (l : list float) : string :=
  match l with
  | [] => ""
  | [x] => printNumber x
  | x :: rest => (printNumber x ++ "," ++ printNumbers rest)%string
  end.

Definition key (name : string) : string :=
  String dquote (name ++ String dquote ":").

Definition JSON_stringify (data : StoredData) : string :=
  ("{" ++ key "clockInTime" ++ printNullable (sd_clockInTime data) ++
   "," ++ key "clockOutTime" ++ printNullable (sd_clockOutTime data) ++
   "," ++ key "totalWorkedToday" ++ Js.toString (sd_totalWorkedToday data) ++
   "," ++ key "weeklyHours" ++ "[" ++ printNumbers (sd_weeklyHours data) ++ "]" ++
   "," ++ key "hourlyRate" ++ printNumber (sd_hourlyRate data) ++ "}")%string.

(** The parser works on the rest of the input and returns what it read with
    what is left. *)

Definition isSpace (c : ascii) : bool :=
  Ascii.eqb c " " || Ascii.eqb c "009" || Ascii.eqb c "010" || Ascii.eqb c "013".

Fixpoint skipSpace (str : string) : string :=
  match str with
  | String c rest => if isSpace c then skipSpace rest else str
  | EmptyString => EmptyString
  end.

Fixpoint dropPrefix (lit str : string) : option string :=
  match lit, str with
  | EmptyString, _ => Some str
  | String a lit', String b str' =>
      if Ascii.eqb a b then dropPrefix lit' str' else None
  | String _ _, EmptyString => None
  end.

(** A token [lit], after optional white space. *)
Definition token (lit str : string) : option string :=
  dropPrefix lit (skipSpace str).

(** The characters of a string literal up to its closing quote. *)
Fixpoint parseChars (str : string) : option (string * string) :=
  match str with
  | EmptyString => None
  | String c rest =>
      if Ascii.eqb c dquote then Some (EmptyString, rest)
      else if Ascii.eqb c backslash then
        match rest with
        | String c' rest' =>
            if Ascii.eqb c' dquote || Ascii.eqb c' backslash then
              match parseChars rest' with
              | Some (body, tail) => Some (String c' body, tail)
              | None => None
              end
            else None
        | EmptyString => None
        end
      else
        match parseChars rest with
        | Some (body, tail) => Some (String c body, tail)
        | None => None
        end
  end.

Definition parseNullable (str : string) : option (option string * string) :=
  match token "null" str with
  | Some rest => Some (None, rest)
  | None =>
      match token (String dquote "") str with
      | Some rest =>
          match parseChars rest with
          | Some (body, tail) => Some (Some body, tail)
          | None => None
          end
      | None => None
      end
  end.

(** The longest prefix of digits, and the rest. *)
Fixpoint spanDigits (str : string) : string * string :=
  match str with
  | String c rest =>
      match digitOf c with
      | Some _ => let '(ds, tail) := spanDigits rest in (String c ds, tail)
      | None => (EmptyString, str)
      end
  | EmptyString => (EmptyString, EmptyString)
  end.

(** A number literal: sign, integer part without a leading zero, optional
    fraction, optional exponent.  The result is the sign, the digits read as
    one integer, and the power of ten that scales it. *)
Definition parseLiteral (str : string) : option (bool * Z * Z * string) :=
  let str := skipSpace str in
  let '(sign, str) :=
    match str with
    | String "-" rest => (true, rest)
    | _ => (false, str)
    end in
  let '(ip, str) := spanDigits str in
  match ip with
  | EmptyString => None
  | String "0" (String _ _) => None
  | _ =>
      let frac :=
        match str with
        | String "." rest =>
            let '(fp, tail) := spanDigits rest in
            match fp with
            | EmptyString => None
            | _ => Some (fp, tail)
            end
        | _ => Some (EmptyString, str)
        end in
      match frac with
      | None => None
      | Some (fp, str) =>
          let mantissa :=
            match digitsValue 0 (ip ++ fp) with Some n => n | None => 0 end in
          let scale := - Z.of_nat (String.length fp) in
          match str with
          | String c rest =>
              if Ascii.eqb c "e" || Ascii.eqb c "E" then
                let '(esign, rest) :=
                  match rest with
                  | String "-" r => (true, r)
                  | String "+" r => (false, r)
                  | _ => (false, rest)
                  end in
                let '(ep, tail) := spanDigits rest in
                match ep, digitsValue 0 ep with
                | String _ _, Some ev =>
                    Some (sign, mantissa, scale + (if esign then - ev else ev), tail)
                | _, _ => None
                end
              else Some (sign, mantissa, scale, str)
          | EmptyString => Some (sign, mantissa, scale, str)
          end
      end
  end.

(** The double nearest to [mantissa * 10^scale]. *)
Definition numberOfLiteral (sign : bool) (mantissa scale : Z) : float :=
  match mantissa with
  | Zpos m =>
      if 0 <=? scale
      then SF2Prim (binary_normalize prec emax
                      (if sign then - (mantissa * 10 ^ scale) else mantissa * 10 ^ scale)
                      0 false)
      else SF2Prim (SFdiv prec emax (S754_finite sign m 0)
                      (S754_finite false (Z.to_pos (10 ^ (- scale))) 0))
  | _ => if sign then (-0)%float else 0%float
  end.

Definition parseNumber (str : string) : option (float * string) :=
  match parseLiteral str with
  | Some (sign, mantissa, scale, rest) =>
      Some (numberOfLiteral sign mantissa scale, rest)
  | None => None
  end.

(** A whole number, for the count of seconds. *)
Definition parseInteger (str : string) : option (Z * string) :=
  match parseLiteral str with
  | Some (sign, mantissa, scale, rest) =>
      if 0 <=? scale
      then Some ((if sign then - 1 else 1) * mantissa * 10 ^ scale, rest)
      else None
  | None => None
  end.

(** The numbers of an array after the first, up to the closing bracket. *)
Fixpoint parseMore (fuel : nat) (str : string) : option (list float * string) :=
  match fuel with
  | O => None
  | S fuel' =>
      match token "]" str with
      | Some rest => Some ([], rest)
      | None =>
          match token "," str with
          | Some rest =>
              match parseNumber rest with
              | Some (x, rest') =>
                  match parseMore fuel' rest' with
                  | Some (xs, tail) => Some (x :: xs, tail)
                  | None => None
                  end
              | None => None
              end
          | None => None
          end
      end
  end.

Definition parseArray (str : string) : option (list float * string) :=
  match token "[" str with
  | Some rest =>
      match token "]" rest with
      | Some tail => Some ([], tail)
      | None =>
          match parseNumber rest with
          | Some (x, rest') =>
              match parseMore (String.length rest') rest' with
              | Some (xs, tail) => Some (x :: xs, tail)
              | None => None
              end
          | None => None
          end
      end
  | None => None
  end.

(** A property name and its colon. *)
Definition property (name str : string) : option string :=
  match token (String dquote (name ++ String dquote "")) str with
  | Some rest => token ":" rest
  | None => None
  end.

Definition JSON_parse (text : string) : option StoredData :=
  match token "{" text with
  | None => None
  | Some r0 =>
  match property "clockInTime" r0 with
  | None => None
  | Some r1 =>
  match parseNullable r1 with
  | None => None
  | Some (cin, r2) =>
  match token "," r2 with
  | None => None
  | Some r3 =>
  match property "clockOutTime" r3 with
  | None => None
  | Some r4 =>
  match parseNullable r4 with
  | None => None
  | Some (cout, r5) =>
  match token "," r5 with
  | None => None
  | Some r6 =>
  match property "totalWorkedToday" r6 with
  | None => None
  | Some r7 =>
  match parseInteger r7 with
  | None => None
  | Some (total, r8) =>
  match token "," r8 with
  | None => None
  | Some r9 =>
  match property "weeklyHours" r9 with
  | None => None
  | Some r10 =>
  match parseArray r10 with
  | None => None
  | Some (weekly, r11) =>
  match token "," r11 with
  | None => None
  | Some r12 =>
  match property "hourlyRate" r12 with
  | None => None
  | Some r13 =>
  match parseNumber r13 with
  | None => None
  | Some (rate, r14) =>
  match token "}" r14 with
  | None => None
  | Some r15 =>
      match skipSpace r15 with
      | EmptyString =>
          Some {| sd_clockInTime := cin;
                  sd_clockOutTime := cout;
                  sd_totalWorkedToday := total;
                  sd_weeklyHours := weekly;
                  sd_hourlyRate := rate |}
      | String _ _ => None
      end
  end end end end end end end end end end end end end end end end.

End Ref.

(** A run used to exercise the system: a first load on Monday 5 January
    1970 at 09:00 UTC, a clock-in, a tick of each timer and a clock-out at
    17:00; then a change of rate, a reload of the page and a display tick. *)
Definition sessionEvents : list event :=
  [Mount 378000000; ClockIn 378000000; WorkedTick; DisplayTick 378001000;
   ClockOut 406800000].

Definition laterEvents : list event :=
  [RateEdit 20; Mount 406860000; DisplayTick 406861000].

Definition demoEvents : list event := sessionEvents ++ laterEvents.

Definition demoEnded : System :=
  match run (fun _ => 0) Ref.Date_parse sessionEvents (initialSystem 0) with
  | Some sys => sys
  | None => initialSystem 0
  end.

Definition demoSystem : System :=
  match run (fun _ => 0) Ref.Date_parse laterEvents demoEnded with
  | Some sys => sys
  | None => initialSystem 0
  end.

(** A rendering with two decimals: an optional minus sign, digits, a point
    and two digits. *)
Definition twoDecimals (out : option string) : Prop :=
  exists sign ip fp : string,
    out = Some (sign ++ ip ++ "." ++ fp)%string /\
    (sign = "" \/ sign = "-")%string /\
    is_Some (decimalValue ip) /\
    is_Some (decimalValue fp) /\
    String.length fp = 2%nat.

(* ------------------------------------------------------------------------- *)
(** ** What the component renders *)

(** The number [calculateDailyEarnings] passes to [toFixed(2)]. *)
Definition dailyAmount (s : State) : float :=
  (Js.float_of_Z (totalWorkedToday s) / 3600 * hourlyRate s)%float.

Definition calculateDailyEarnings (s : State) : option string :=
  Js.toFixed 2 (dailyAmount s).

(** [out] renders the number [x] with two decimals: the sign of [x], digits,
    a point and two digits, denoting a number within half a hundredth of the
    magnitude of [x]. *)
Definition roundsTo (x : float) (out : option string) : Prop :=
  exists (ip fp : string) (a b : Z),
    out = Some (floatSign x ++ ip ++ "." ++ fp)%string /\
    String.length fp = 2%nat /\
    decimalValue ip = Some a /\
    decimalValue fp = Some b /\
    forall v, floatMagnitude x = Some v ->
      (Qabs (inject_Z a + inject_Z b / 100 - v) <= 1 # 200)%Q.

(** The status line: [clockInTime && !clockOutTime ? 'At Work' : 'Off Work']. *)
Definition statusText (s : State) : string :=
  if activeSessionb s then "At Work" else "Off Work".

(** One column of the weekly summary: the label, [weeklyHours[index]
    .toFixed(2)] and [(weeklyHours[index] * hourlyRate).toFixed(2)].  The
    outer [None] is the [TypeError] of calling [toFixed] on [undefined], when
    the array has no entry at [index]. *)
Definition summaryCell (s : State) (day : string) (index : nat)
  : option (string * option string * option string) :=
  match weeklyHours s !! index with
  | Some hours =>
      Some (day, Js.toFixed 2 hours, Js.toFixed 2 (hours * hourlyRate s)%float)
  | None => None
  end.

Definition dayLabels : list string := ["Mon"; "Tue"; "Wed"; "Thu"; "Fri"]%string.

(** [['Mon', ...].map((day, index) => ...)]: the columns in order; the first
    failing column fails the render. *)
Fixpoint summaryFrom (s : State) (days : list string) (index : nat)
  : option (list (string * option string * option string)) :=
  match days with
  | [] => Some []
  | day :: rest =>
      match summaryCell s day index with
      | Some cell =>
          match summaryFrom s rest (S index) with
          | Some cells => Some (cell :: cells)
          | None => None
          end
      | None => None
      end
  end.

Definition weeklySummary (s : State) :=
  summaryFrom s dayLabels 0.

(** *** The avatar fallback: [name.split(' ').map((n) => n[0]).join('')] *)

(** [str.split(sep)] for a one-character separator: the pieces between
    separators, empty pieces included; never an empty list. *)
Fixpoint split (sep : ascii) (str : string) : list string :=
  match str with
  | EmptyString => [EmptyString]
  | String c rest =>
      if Ascii.eqb c sep then EmptyString :: split sep rest
      else match split sep rest with
           | piece :: pieces => String c piece :: pieces
           | [] => [String c EmptyString]
           end
  end.

(** [n[0]]: [None] is [undefined], for the empty string. *)
Definition firstChar (n : string) : option ascii :=
  match n with
  | String c _ => Some c
  | EmptyString => None
  end.

(** [arr.join('')]: [undefined] contributes nothing. *)
Fixpoint join (parts : list (option ascii)) : string :=
  match parts with
  | [] => EmptyString
  | Some c :: rest => String c (join rest)
  | None :: rest => join rest
  end.

Definition initials (name : string) : string :=
  join (map firstChar (split " " name)).

(** The same letters read in one pass: a character is kept when it is not a
    space and it starts the name or follows a space. *)
Fixpoint wordStarts (atStart : bool) (name : string) : string :=
  match name with
  | EmptyString => EmptyString
  | String c rest =>
      if Ascii.eqb c " " then wordStarts true rest
      else if atStart then String c (wordStarts false rest)
      else wordStarts false rest
  end.

(** How many times the worked-time timer fires in a sequence of events. *)
Fixpoint workedTicks (es : list event) : Z :=
  match es with
  | [] => 0
  | WorkedTick :: rest => 1 + workedTicks rest
  | _ :: rest => workedTicks rest
  end.

(** How many clock-ins, and how many clock-outs, a sequence of events holds. *)
Fixpoint clockIns (es : list event) : nat :=
  match es with
  | [] => 0
  | ClockIn _ :: rest => S (clockIns rest)
  | _ :: rest => clockIns rest
  end.

Fixpoint clockOuts (es : list event) : nat :=
  match es with
  | [] => 0
  | ClockOut _ :: rest => S (clockOuts rest)
  | _ :: rest => clockOuts rest
  end.

Definition zeroWeek : list float := [0; 0; 0; 0; 0]%float.

(** The state of a first render, whatever its [currentTime]. *)
Definition pristine (c : State) : Prop :=
  clockInTime c = None /\ clockOutTime c = None /\ totalWorkedToday c = 0 /\
  weeklyHours c = zeroWeek /\ hourlyRate c = 15%float.

(** The timestamps of a state are time values a [Date] can hold. *)
Definition validTimes (s : State) : Prop :=
  forall t, clockInTime s = Some t \/ clockOutTime s = Some t -> Js.validTime t.

(** What every reachable state satisfies: the storage cell holds the state,
    or nothing is stored and the state is pristine; a clock-out time comes
    with a clock-in time; without a clock-in no second was counted; without a
    clock-out no slot was written; and at most one slot was ever written. *)
Definition wellFormed (sys : System) : Prop :=
  (stored sys = Some (dataToStore (comp sys)) \/
   (stored sys = None /\ pristine (comp sys))) /\
  (is_Some (clockOutTime (comp sys)) -> is_Some (clockInTime (comp sys))) /\
  (clockInTime (comp sys) = None -> totalWorkedToday (comp sys) = 0) /\
  (clockOutTime (comp sys) = None -> weeklyHours (comp sys) = zeroWeek) /\
  (exists (i : nat) (v : float),
     (i < 5)%nat /\ weeklyHours (comp sys) = <[i := v]> zeroWeek).

(* ========================================================================= *)
(** * Properties *)

Example formatTime_1h : formatTime 3661 = "01:01:01"%string.
Proof. reflexivity. Qed.

Example clock_out_monday :
  weeklyAfterClockOut (fun _ => 0) (4 * 86400000 + 17 * 3600000)
    (handleClockIn (4 * 86400000 + 9 * 3600000) (initialState 0))
  = [8; 0; 0; 0; 0]%float.
Proof. vm_compute. reflexivity. Qed.

(** 2026-11-03 06:44:05 UTC is a Tuesday; at UTC+8 the local hour is 14. *)
Example getDay_2026 : Js.getDay (fun _ => 0) 1793688245123 = 2.
Proof. reflexivity. Qed.
Example getHours_2026 : Js.getHours (fun _ => 8 * 3600000) 1793688245123 = 14.
Proof. reflexivity. Qed.
Example getDay_before_epoch : Js.getDay (fun _ => 0) (-1) = 3.
Proof. reflexivity. Qed.

Example iso_epoch : Js.isoOfTime 0 = "1970-01-01T00:00:00.000Z"%string.
Proof. vm_compute. reflexivity. Qed.
Example iso_2026 : Js.isoOfTime 1793688245123 = "2026-11-03T06:44:05.123Z"%string.
Proof. vm_compute. reflexivity. Qed.
Example iso_neg : Js.isoOfTime (-62167219200001) = "-000001-12-31T23:59:59.999Z"%string.
Proof. vm_compute. reflexivity. Qed.
Example float_of_Z_rounds :
  map Js.float_of_Z [0; 5; -5; 2 ^ 53 + 1; 2 ^ 63; 10 ^ 21]
  = [0; 5; -5; 9007199254740992; 9223372036854775808; 1e21]%float.
Proof. vm_compute. reflexivity. Qed.

Example numberToString_samples :
  map Js.numberToString
    [1; 0.1; 123.456; 1e21; 1e-7; 0.000001; 277777777777777792;
     123456789012345680000; -42; 0.30000000000000004]%float
  = ["1"; "0.1"; "123.456"; "1e+21"; "1e-7"; "0.000001"; "277777777777777800";
     "123456789012345680000"; "-42"; "0.30000000000000004"]%string.
Proof. vm_compute. reflexivity. Qed.

Example toFixed_integer : Js.toFixed 2 600 = Some "600.00"%string.
Proof. vm_compute. reflexivity. Qed.
Example toFixed_tie : Js.toFixed 2 0.125 = Some "0.13"%string.
Proof. vm_compute. reflexivity. Qed.
Example toFixed_negative_small : Js.toFixed 2 (-0.001) = Some "-0.00"%string.
Proof. vm_compute. reflexivity. Qed.
Example toFixed_inexact : Js.toFixed 2 1.005 = Some "1.00"%string.
Proof. vm_compute. reflexivity. Qed.
Example toFixed_exponent : Js.toFixed 2 4e22 = None.
Proof. vm_compute. reflexivity. Qed.
Example toFixed_largest : Js.toFixed 2 999999999999999868928 = Some "999999999999999868928.00"%string.
Proof. vm_compute. reflexivity. Qed.
Example daysFromCivil_2026 : Js.daysFromCivil 2026 11 3 = 1793688245123 / 86400000.
Proof. vm_compute. reflexivity. Qed.

(* ------------------------------------------------------------------------- *)
(** ** Arrays *)

Lemma array_set_in_range (arr : list float) (i : nat) (v : float) :
  (i < length arr)%nat -> Js.array_set arr i v = <[i := v]> arr.
Proof.
  intros Hi. unfold Js.array_set.
  destruct (Nat.ltb_spec i (length arr)); [reflexivity | lia].
Qed.

Lemma array_set_lookup (arr : list float) (i : nat) (v : float) :
  Js.array_set arr i v !! i = Some v.
Proof.
  unfold Js.array_set. destruct (Nat.ltb_spec i (length arr)) as [Hlt | Hge].
  - now apply list_lookup_insert_eq.
  - rewrite lookup_app_r by lia.
    rewrite lookup_app_r by (rewrite length_replicate; lia).
    rewrite length_replicate.
    replace (i - length arr - (i - length arr))%nat with 0%nat by lia.
    reflexivity.
Qed.


(* ------------------------------------------------------------------------- *)
(** ** Clock-in and clock-out *)

Section Handlers.
Variable tz : Z -> Z.

Lemma getDay_range (t : Z) : 0 <= Js.getDay tz t < 7.
Proof. unfold Js.getDay. apply Z.mod_pos_bound. lia. Qed.

Lemma getHours_range (t : Z) : 0 <= Js.getHours tz t < 24.
Proof. unfold Js.getHours. apply Z.mod_pos_bound. lia. Qed.

Lemma weeklyAfterClockOut_weekday (now cin : Z) (s : State) :
  clockInTime s = Some cin ->
  1 <= Js.getDay tz now <= 5 ->
  weeklyAfterClockOut tz now s =
    Js.array_set (weeklyHours s) (Z.to_nat (Js.getDay tz now - 1))
      (Js.float_of_Z (Js.differenceInSeconds now cin) / 3600)%float.
Proof.
  intros Hcin Hday. unfold weeklyAfterClockOut, todayIndex. rewrite Hcin.
  destruct (Z.leb_spec 0 (Js.getDay tz now - 1)); [ | lia].
  destruct (Z.ltb_spec (Js.getDay tz now - 1) 5); [ | lia].
  reflexivity.
Qed.

Lemma weeklyAfterClockOut_weekend (now : Z) (s : State) :
  Js.getDay tz now = 0 \/ Js.getDay tz now = 6 ->
  weeklyAfterClockOut tz now s = weeklyHours s.
Proof.
  intros Hday. unfold weeklyAfterClockOut, todayIndex.
  destruct (clockInTime s); [ | reflexivity].
  destruct Hday as [-> | ->]; reflexivity.
Qed.
End Handlers.

(** C2.  Whatever the state before, clock-in at [now] sets [clockInTime] to
    [now], clears [clockOutTime] and resets [totalWorkedToday] to 0. *)
Theorem handleClockIn_resets (now : Z) (s : State) :
  clockInTime (handleClockIn now s) = Some now /\
  clockOutTime (handleClockIn now s) = None /\
  totalWorkedToday (handleClockIn now s) = 0.
Proof. repeat split. Qed.



(** C4.  Clock-out at a [now] that falls on Sunday (day 0) or Saturday
    (day 6) writes no slot: [weeklyHours] is what it was. *)
Theorem handleClockOut_weekend (tz : Z -> Z) (now : Z) (s : State) :
  activeSession s ->
  Js.getDay tz now = 0 \/ Js.getDay tz now = 6 ->
  weeklyHours (handleClockOut tz now s) = weeklyHours s.
Proof. intros _ Hday. simpl. now apply weeklyAfterClockOut_weekend. Qed.

(** Saturday 3 January 1970, after a clock-in the day before. *)
Lemma handleClockOut_weekend_witness :
  weeklyHours (handleClockOut (fun _ => 0) (2 * 86400000 + 3600000)
                 (handleClockIn 86400000 (initialState 0)))
  = [0; 0; 0; 0; 0]%float.
Proof.
  apply (handleClockOut_weekend (fun _ => 0) (2 * 86400000 + 3600000)
           (handleClockIn 86400000 (initialState 0))).
  - split; [eexists; reflexivity | reflexivity].
  - right. reflexivity.
Defined.

(** C3.  The Clock In button is enabled exactly when [clockInTime] is null,
    the local hour of [currentTime] is in 9..16 and its day is 1..5, so never
    during an active session; the Clock Out button is disabled exactly when
    there is no active session: none started, or the one started has ended. *)
Theorem button_gates (tz : Z -> Z) (s : State) :
  (clockInDisabled tz s = false <->
     clockInTime s = None /\
     9 <= Js.getHours tz (currentTime s) < 17 /\
     1 <= Js.getDay tz (currentTime s) <= 5) /\
  (clockInDisabled tz s = false -> ~ activeSession s) /\
  (clockOutDisabled s = true <->
     clockInTime s = None \/ is_Some (clockOutTime s)) /\
  (clockOutDisabled s = true <-> ~ activeSession s).
Proof.
  unfold clockInDisabled, clockOutDisabled, isWorkingHours, isWeekday,
    activeSession.
  destruct (clockInTime s) as [cin | ], (clockOutTime s) as [cout | ]; simpl;
    rewrite ?orb_false_iff, ?negb_false_iff, ?andb_true_iff,
      ?Z.leb_le, ?Z.ltb_lt.
  all: repeat split.
  all: try (intros; intuition (try congruence; try lia; eauto; try (eapply is_Some_None; eauto); fail)).
  intros [H | [x H]]; discriminate.
Qed.

(* ------------------------------------------------------------------------- *)
(** ** Formatting of integers *)

Lemma toString_nonneg (z : Z) :
  0 <= z -> exists d, Js.toString z = NilEmpty.string_of_uint d /\ Z.of_uint d = z.
Proof.
  intros Hz. destruct z as [ | p | p]; [ | | lia].
  - exists (Decimal.D0 Decimal.Nil). split; reflexivity.
  - exists (Pos.to_uint p). split.
    + unfold Js.toString. simpl. unfold NilZero.string_of_uint.
      destruct (Pos.to_uint p) eqn:E; try reflexivity.
      exfalso. now apply (DecimalPos.Unsigned.to_uint_nonnil p).
    + unfold Z.of_uint. now rewrite DecimalPos.Unsigned.of_to.
Qed.

Lemma digitsValue_of_uint_acc (d : Decimal.uint) (acc : positive) :
  digitsValue (Zpos acc) (NilEmpty.string_of_uint d) = Some (Zpos (Pos.of_uint_acc d acc)).
Proof.
  revert acc. induction d; intros acc; simpl; [reflexivity | ..];
    (etransitivity; [ | apply IHd ]); f_equal; cbv [Pos.of_uint_acc]; lia.
Qed.

Lemma digitsValue_of_uint (d : Decimal.uint) :
  digitsValue 0 (NilEmpty.string_of_uint d) = Some (Z.of_uint d).
Proof.
  induction d; simpl; try exact IHd; try reflexivity;
    unfold Z.of_uint; simpl; apply digitsValue_of_uint_acc.
Qed.

Lemma decimalValue_toString (z : Z) :
  0 <= z -> decimalValue (Js.toString z) = Some z.
Proof.
  intros Hz. destruct (toString_nonneg z Hz) as (d & -> & <-).
  apply digitsValue_of_uint.
Qed.

Lemma decimalValue_zeros (k : nat) (str : string) :
  decimalValue (string_of_list_ascii (replicate k "0"%char) ++ str) = decimalValue str.
Proof. induction k as [ | k IH]; [reflexivity | exact IH]. Qed.

Lemma digitOf_range (c : ascii) (d : Z) : digitOf c = Some d -> 0 <= d <= 9.
Proof.
  unfold digitOf. cbv zeta.
  destruct (Z.leb_spec 48 (Z.of_N (N_of_ascii c)));
    destruct (Z.leb_spec (Z.of_N (N_of_ascii c)) 57); simpl;
    try discriminate.
  intros [= <-]. lia.
Qed.

Lemma digitsValue_app (acc : Z) (s1 s2 : string) :
  digitsValue acc (s1 ++ s2) =
    match digitsValue acc s1 with
    | Some v => digitsValue v s2
    | None => None
    end.
Proof.
  revert acc. induction s1 as [ | c s1 IH]; intros acc; simpl; [reflexivity | ].
  destruct (digitOf c); [apply IH | reflexivity].
Qed.

Lemma digitsValue_shift (acc : Z) (str : string) :
  digitsValue acc str =
    match digitsValue 0 str with
    | Some v => Some (acc * 10 ^ Z.of_nat (String.length str) + v)
    | None => None
    end.
Proof.
  revert acc. induction str as [ | c str IH]; intros acc.
  - simpl. f_equal. lia.
  - cbn [digitsValue String.length]. destruct (digitOf c) as [d | ]; [ | reflexivity].
    rewrite (IH (10 * acc + d)), (IH (10 * 0 + d)).
    destruct (digitsValue 0 str) as [v | ]; [ | reflexivity].
    f_equal. rewrite Nat2Z.inj_succ, Z.pow_succ_r by lia. lia.
Qed.

Lemma digitsValue_bound (str : string) (v : Z) :
  digitsValue 0 str = Some v -> 0 <= v < 10 ^ Z.of_nat (String.length str).
Proof.
  revert v. induction str as [ | c str IH]; intros v.
  - simpl. intros [= <-]. lia.
  - cbn [digitsValue String.length].
    destruct (digitOf c) as [d | ] eqn:Hd; [ | discriminate].
    apply digitOf_range in Hd.
    rewrite digitsValue_shift.
    destruct (digitsValue 0 str) as [w | ]; [ | discriminate].
    intros [= <-]. specialize (IH w eq_refl).
    rewrite Nat2Z.inj_succ, Z.pow_succ_r by lia. nia.
Qed.

Lemma decimalValue_short (str : string) (z : Z) :
  (String.length str <= 1)%nat -> decimalValue str = Some z -> z < 10.
Proof.
  intros Hlen Hv. apply digitsValue_bound in Hv.
  destruct str as [ | c [ | c' str]]; simpl in *; lia.
Qed.

Lemma decimalValue_pad (n : nat) (z : Z) :
  0 <= z -> decimalValue (Js.padStart n "0" (Js.toString z)) = Some z.
Proof.
  intros Hz. unfold Js.padStart.
  now rewrite decimalValue_zeros, decimalValue_toString.
Qed.

Lemma length_replicate_string (k : nat) (c : ascii) :
  String.length (string_of_list_ascii (replicate k c)) = k.
Proof. induction k; simpl; congruence. Qed.

Lemma length_append (s1 s2 : string) :
  String.length (s1 ++ s2) = (String.length s1 + String.length s2)%nat.
Proof. induction s1; simpl; congruence. Qed.

Lemma length_padStart (n : nat) (c : ascii) (str : string) :
  String.length (Js.padStart n c str) = Nat.max n (String.length str).
Proof.
  unfold Js.padStart. rewrite length_append, length_replicate_string. lia.
Qed.

Lemma to_uint_no_leading_zero (p : positive) (d' : Decimal.uint) :
  Pos.to_uint p <> Decimal.D0 d'.
Proof.
  intros E.
  assert (Hn : Decimal.unorm (Pos.to_uint p) = Pos.to_uint p).
  { rewrite <- (DecimalPos.Unsigned.to_of (Pos.to_uint p)).
    now rewrite DecimalPos.Unsigned.of_to. }
  rewrite E in Hn. rewrite DecimalFacts.unorm_D0 in Hn.
  assert (Hcase : d' = Decimal.Nil \/ d' <> Decimal.Nil)
    by (destruct d'; [now left | right; discriminate ..]).
  destruct Hcase as [-> | Hnil].
  - now apply (DecimalPos.Unsigned.to_uint_nonzero p).
  - pose proof (DecimalFacts.nb_digits_unorm d' Hnil) as Hle.
    rewrite Hn in Hle. simpl in Hle. lia.
Qed.

Lemma toString_lower (z : Z) :
  0 < z -> 10 ^ (Z.of_nat (String.length (Js.toString z)) - 1) <= z.
Proof.
  intros Hz. destruct z as [ | p | p]; try lia.
  pose proof (decimalValue_toString (Zpos p) ltac:(lia)) as Hv.
  unfold Js.toString in *. simpl in *. unfold NilZero.string_of_uint in *.
  pose proof (to_uint_no_leading_zero p) as Hnz.
  pose proof (DecimalPos.Unsigned.to_uint_nonnil p) as Hnn.
  unfold decimalValue in Hv.
  destruct (Pos.to_uint p) as [ | d | d | d | d | d | d | d | d | d | d];
    try congruence; try (exfalso; now apply (Hnz d));
    cbn [NilEmpty.string_of_uint digitsValue String.length] in *;
    match type of Hv with
    | context [digitOf ?c] =>
        let k := eval vm_compute in (digitOf c) in
        change (digitOf c) with k in Hv; cbv iota beta in Hv
    end;
    rewrite digitsValue_shift in Hv;
    destruct (digitsValue 0 (NilEmpty.string_of_uint d)) as [v | ] eqn:Hd;
      try discriminate;
    apply digitsValue_bound in Hd; injection Hv as Hv;
    rewrite Nat2Z.inj_succ;
    replace (Z.succ (Z.of_nat (String.length (NilEmpty.string_of_uint d))) - 1)
      with (Z.of_nat (String.length (NilEmpty.string_of_uint d))) by lia;
    nia.
Qed.

Lemma length_toString_le (n : nat) (z : Z) :
  (1 <= n)%nat -> 0 <= z < 10 ^ Z.of_nat n ->
  (String.length (Js.toString z) <= n)%nat.
Proof.
  intros Hn Hz. destruct (Z.eq_dec z 0) as [-> | Hne]; [simpl; lia | ].
  pose proof (toString_lower z ltac:(lia)) as Hlow.
  destruct (Nat.le_gt_cases (String.length (Js.toString z)) n) as [H | H]; [exact H | ].
  exfalso.
  assert (10 ^ Z.of_nat n <= 10 ^ (Z.of_nat (String.length (Js.toString z)) - 1))
    by (apply Z.pow_le_mono_r; lia).
  lia.
Qed.

Lemma length_pad2_below_100 (z : Z) :
  0 <= z < 100 -> String.length (Js.padStart 2 "0" (Js.toString z)) = 2%nat.
Proof.
  intros Hz. rewrite length_padStart.
  pose proof (length_toString_le 2 z ltac:(lia) ltac:(simpl; lia)). lia.
Qed.

Lemma padStart_long (n : nat) (c : ascii) (str : string) :
  (n <= String.length str)%nat -> Js.padStart n c str = str.
Proof.
  intros Hn. unfold Js.padStart.
  replace (n - String.length str)%nat with 0%nat by lia. reflexivity.
Qed.

(** C8, as the code has it.  For a whole number of seconds from 0 up to
    2^53, where double arithmetic is exact, [formatTime] returns three fields
    of decimal digits separated by colons: the hours [seconds / 3600], the
    minutes [seconds / 60 mod 60] and the seconds [seconds mod 60]; minutes
    and seconds take exactly two characters and the hours at least two, and
    the hours are the whole quotient, not reduced modulo 24. *)
Theorem formatTime_fields (seconds : Z) :
  0 <= seconds ->
  seconds < 2 ^ 53 ->
  exists hh mm ss : string,
    formatTime seconds = (hh ++ ":" ++ mm ++ ":" ++ ss)%string /\
    decimalValue hh = Some (seconds / 3600) /\
    decimalValue mm = Some (seconds / 60 mod 60) /\
    decimalValue ss = Some (seconds mod 60) /\
    (2 <= String.length hh)%nat /\
    String.length mm = 2%nat /\
    String.length ss = 2%nat /\
    (10 <= seconds / 3600 -> hh = Js.toString (seconds / 3600)).
Proof.
  intros Hs _.
  assert (Hm : Z.rem seconds 3600 / 60 = seconds / 60 mod 60).
  { rewrite Z.rem_mod_nonneg by lia.
    rewrite (Z.mod_eq seconds 3600) by lia.
    replace (seconds - 3600 * (seconds / 3600))
      with (seconds + (- (60 * (seconds / 3600))) * 60) by lia.
    rewrite Z.div_add by lia.
    replace 3600 with (60 * 60) by reflexivity.
    rewrite <- Z.div_div by lia.
    rewrite (Z.mod_eq (seconds / 60) 60) by lia. lia. }
  assert (Hr : Z.rem seconds 60 = seconds mod 60) by (apply Z.rem_mod_nonneg; lia).
  assert (Hh : 0 <= seconds / 3600) by (apply Z.div_pos; lia).
  assert (Hmr : 0 <= seconds / 60 mod 60 < 60) by (apply Z.mod_pos_bound; lia).
  assert (Hsr : 0 <= seconds mod 60 < 60) by (apply Z.mod_pos_bound; lia).
  exists (Js.padStart 2 "0" (Js.toString (seconds / 3600))),
         (Js.padStart 2 "0" (Js.toString (seconds / 60 mod 60))),
         (Js.padStart 2 "0" (Js.toString (seconds mod 60))).
  split; [unfold formatTime; cbv zeta; now rewrite Hm, Hr | ].
  split; [now apply decimalValue_pad | ].
  split; [apply decimalValue_pad; lia | ].
  split; [apply decimalValue_pad; lia | ].
  split; [rewrite length_padStart; lia | ].
  split; [apply length_pad2_below_100; lia | ].
  split; [apply length_pad2_below_100; lia | ].
  intros Hbig. apply padStart_long.
  destruct (Nat.le_gt_cases 2 (String.length (Js.toString (seconds / 3600))))
    as [Hlen | Hlen]; [exact Hlen | ].
  assert (Hshort : (String.length (Js.toString (seconds / 3600)) <= 1)%nat) by lia.
  pose proof (decimalValue_short _ _ Hshort (decimalValue_toString _ Hh)).
  lia.
Qed.

(** One hundred hours: the hours field takes three digits. *)
Lemma formatTime_fields_witness :
  exists hh mm ss : string,
    formatTime 360000 = (hh ++ ":" ++ mm ++ ":" ++ ss)%string /\
    decimalValue hh = Some (360000 / 3600) /\
    decimalValue mm = Some (360000 / 60 mod 60) /\
    decimalValue ss = Some (360000 mod 60) /\
    (2 <= String.length hh)%nat /\
    String.length mm = 2%nat /\
    String.length ss = 2%nat /\
    (10 <= 360000 / 3600 -> hh = Js.toString (360000 / 3600)).
Proof. apply (formatTime_fields 360000); [lia | reflexivity]. Defined.

Example formatTime_100h : formatTime 360000 = "100:00:00"%string.
Proof. reflexivity. Qed.

(** The function on doubles agrees with [formatTime] on whole numbers of
    seconds, up to the last one below 2^53. *)
Example formatTimeNumber_agrees :
  map (fun z => formatTimeNumber (Js.float_of_Z z))
      [0; 59; 60; 3599; 3600; 3661; 86399; 360000; 2 ^ 53 - 1]
  = map formatTime [0; 59; 60; 3599; 3600; 3661; 86399; 360000; 2 ^ 53 - 1].
Proof. vm_compute. reflexivity. Qed.

Example formatTimeNumber_fraction : formatTimeNumber 0.5 = "00:00:0.5"%string.
Proof. vm_compute. reflexivity. Qed.

Example formatTimeNumber_negative : formatTimeNumber (-1) = "-1:-1:-1"%string.
Proof. vm_compute. reflexivity. Qed.

(** C8 as stated fails from 2^53 up.  At 10^21 seconds, a whole number and a
    double, the quotient by 3600 is rounded to the double 277777777777777792,
    which [toString] writes 277777777777777800: the hours field is not the
    integer quotient 277777777777777777. *)
Lemma formatTimeNumber_beyond_2_53 :
  Js.float_of_Z (10 ^ 21) = 1e21%float /\
  formatTimeNumber 1e21 = "277777777777777800:46:40"%string /\
  decimalValue "277777777777777800" = Some 277777777777777800 /\
  10 ^ 21 / 3600 = 277777777777777777 /\
  decimalValue "277777777777777800" <> Some (10 ^ 21 / 3600).
Proof.
  split; [vm_compute; reflexivity | ].
  split; [vm_compute; reflexivity | ].
  split; [vm_compute; reflexivity | ].
  split; [reflexivity | ].
  vm_compute. discriminate.
Qed.

(* ------------------------------------------------------------------------- *)
(** ** Rounding to two decimals *)

Lemma substring_split (str : string) (k : nat) :
  (k <= String.length str)%nat ->
  str = (substring 0 k str ++ substring k (String.length str - k) str)%string.
Proof.
  revert k. induction str as [ | c str IH]; intros k Hk.
  - destruct k; [reflexivity | simpl in Hk; lia].
  - destruct k as [ | k].
    + simpl. f_equal. clear. induction str; simpl; congruence.
    + simpl in *. f_equal. apply IH. lia.
Qed.

Lemma length_substring (str : string) (k n : nat) :
  (k + n <= String.length str)%nat -> String.length (substring k n str) = n.
Proof.
  revert k n. induction str as [ | c str IH]; intros k n Hk.
  - simpl in Hk. destruct k, n; simpl; lia.
  - destruct k as [ | k]; simpl in *.
    + destruct n as [ | n]; [reflexivity | ]. simpl. f_equal. apply IH. lia.
    + apply IH. lia.
Qed.

Lemma fixedDigits_two (n : Z) :
  0 <= n ->
  exists ip fp : string,
    Js.fixedDigits 2 n = (ip ++ "." ++ fp)%string /\
    String.length fp = 2%nat /\
    decimalValue ip = Some (n / 100) /\
    decimalValue fp = Some (n mod 100).
Proof.
  intros Hn. unfold Js.fixedDigits.
  set (m := Js.padStart (2 + 1) "0" (Js.toString n)).
  assert (Hlen : (3 <= String.length m)%nat)
    by (unfold m; rewrite length_padStart; lia).
  assert (Hval : decimalValue m = Some n) by (now apply decimalValue_pad).
  cbv zeta.
  exists (substring 0 (String.length m - 2) m), (substring (String.length m - 2) 2 m).
  assert (Hfp : String.length (substring (String.length m - 2) 2 m) = 2%nat)
    by (apply length_substring; lia).
  split; [reflexivity | ]. split; [exact Hfp | ].
  pose proof (substring_split m (String.length m - 2) ltac:(lia)) as Hsplit.
  replace (String.length m - (String.length m - 2))%nat with 2%nat in Hsplit by lia.
  unfold decimalValue in *. rewrite Hsplit, digitsValue_app in Hval.
  destruct (digitsValue 0 (substring 0 (String.length m - 2) m)) as [a | ];
    [ | discriminate].
  rewrite digitsValue_shift in Hval.
  destruct (digitsValue 0 (substring (String.length m - 2) 2 m)) as [b | ] eqn:Hb;
    [ | discriminate].
  apply digitsValue_bound in Hb. rewrite Hfp in *.
  injection Hval as Hval. change (10 ^ Z.of_nat 2) with 100 in *.
  assert (Ha : a = n / 100) by (apply Z.div_unique with b; lia).
  assert (Hb' : b = n mod 100) by (apply Z.mod_unique with a; lia).
  split; congruence.
Qed.

Lemma nearestScaled_nonneg (m : positive) (e : Z) : 0 <= Js.nearestScaled 2 m e.
Proof.
  unfold Js.nearestScaled. cbv zeta. destruct (0 <=? e) eqn:He.
  - apply Z.leb_le in He. assert (0 < 2 ^ e) by (apply Z.pow_pos_nonneg; lia). nia.
  - apply Z.leb_gt in He. apply Z.div_pos.
    + assert (0 < 2 ^ (- e)) by (apply Z.pow_pos_nonneg; lia). lia.
    + apply Z.pow_pos_nonneg; lia.
Qed.

Lemma nearestScaled_close (m : positive) (e : Z) (a b : Z) :
  Js.nearestScaled 2 m e = 100 * a + b ->
  (Qabs (inject_Z a + inject_Z b / 100 -
         (if 0 <=? e then inject_Z (Zpos m * 2 ^ e)
          else Qmake (Zpos m) (Z.to_pos (2 ^ (- e))))) <= 1 # 200)%Q.
Proof.
  unfold Js.nearestScaled. cbv zeta. intros Hn.
  apply Qabs_Qle_condition.
  destruct (0 <=? e) eqn:He.
  - change (Z.of_nat 2) with 2 in Hn. change (10 ^ 2) with 100 in Hn.
    unfold Qle, Qminus, Qplus, Qopp, Qdiv, Qmult, Qinv, inject_Z; simpl.
    split; nia.
  - apply Z.leb_gt in He.
    change (Z.of_nat 2) with 2 in Hn. change (10 ^ 2) with 100 in Hn.
    assert (HT : 0 < 2 ^ (- e)) by (apply Z.pow_pos_nonneg; lia).
    replace (2 ^ (- e + 1)) with (2 * 2 ^ (- e)) in Hn
      by (rewrite Z.pow_add_r by lia; lia).
    pose proof (Z.mul_div_le (2 * (Zpos m * 100) + 2 ^ (- e)) (2 * 2 ^ (- e))
                  ltac:(lia)) as Hlo.
    pose proof (Z.mul_succ_div_gt (2 * (Zpos m * 100) + 2 ^ (- e)) (2 * 2 ^ (- e))
                  ltac:(lia)) as Hhi.
    rewrite Hn in Hlo, Hhi.
    unfold Qle, Qminus, Qplus, Qopp, Qdiv, Qmult, Qinv, inject_Z; simpl.
    rewrite ?Pos2Z.inj_mul, ?Z2Pos.id by lia.
    split; nia.
Qed.

Lemma weeklyTotal_five (s : State) (w0 w1 w2 w3 w4 : float) :
  weeklyHours s = [w0; w1; w2; w3; w4] ->
  weeklyTotal s =
    (0 + w0 * hourlyRate s + w1 * hourlyRate s + w2 * hourlyRate s
       + w3 * hourlyRate s + w4 * hourlyRate s)%float.
Proof. unfold weeklyTotal. now intros ->. Qed.

Lemma below_1e21 (m : positive) (e : Z) :
  ((if 0 <=? e then inject_Z (Zpos m * 2 ^ e)
    else Qmake (Zpos m) (Z.to_pos (2 ^ (- e)))) < inject_Z (10 ^ 21))%Q ->
  Js.atLeast1e21 m e = false.
Proof.
  unfold Js.atLeast1e21. destruct (0 <=? e) eqn:He.
  - unfold Qlt, inject_Z. simpl Qnum. simpl Qden. intros H.
    apply Z.leb_gt. lia.
  - apply Z.leb_gt in He.
    assert (HT : 0 < 2 ^ (- e)) by (apply Z.pow_pos_nonneg; lia).
    unfold Qlt, inject_Z. simpl Qnum. simpl Qden.
    rewrite Z2Pos.id by lia. intros H. apply Z.leb_gt. lia.
Qed.

(** C7, as the code has it.  When the weekly total, the fold of
    [total + hours * hourlyRate] over [weeklyHours] from 0, is a finite number
    of magnitude [v] below 10^21, the text displayed is its sign, digits, a
    point and two digits, and the number the digits denote is within half a
    hundredth of [v].  For five entries the total is the sum of the five
    products. *)
Theorem weeklyEarnings_rounded (s : State) (v : Q) :
  floatMagnitude (weeklyTotal s) = Some v ->
  (v < inject_Z (10 ^ 21))%Q ->
  (forall w0 w1 w2 w3 w4 : float,
     weeklyHours s = [w0; w1; w2; w3; w4] ->
     weeklyTotal s =
       (0 + w0 * hourlyRate s + w1 * hourlyRate s + w2 * hourlyRate s
          + w3 * hourlyRate s + w4 * hourlyRate s)%float) /\
  exists (ip fp : string) (a b : Z),
    calculateWeeklyEarnings s =
      Some (floatSign (weeklyTotal s) ++ ip ++ "." ++ fp)%string /\
    String.length fp = 2%nat /\
    decimalValue ip = Some a /\
    decimalValue fp = Some b /\
    (Qabs (inject_Z a + inject_Z b / 100 - v) <= 1 # 200)%Q.
Proof.
  intros Hv Hsmall. split; [apply weeklyTotal_five | ].
  unfold calculateWeeklyEarnings, Js.toFixed, floatMagnitude, floatSign in *.
  destruct (Prim2SF (weeklyTotal s)) as [z | i | | sign m e]; try discriminate.
  - injection Hv as <-.
    destruct (fixedDigits_two 0 ltac:(lia)) as (ip & fp & Heq & Hlen & Hip & Hfp).
    exists ip, fp, 0, 0. rewrite Heq. repeat split; try assumption.
    discriminate.
  - injection Hv as <-.
    rewrite (below_1e21 m e Hsmall).
    pose proof (nearestScaled_nonneg m e) as Hn.
    destruct (fixedDigits_two _ Hn) as (ip & fp & Heq & Hlen & Hip & Hfp).
    exists ip, fp, (Js.nearestScaled 2 m e / 100), (Js.nearestScaled 2 m e mod 100).
    rewrite Heq. repeat split; try assumption.
    apply nearestScaled_close. apply Z.div_mod. lia.
Qed.

(** Five days of eight hours at 15 an hour: the total is 600, that is
    5277655813324800 / 2^43, displayed as 600.00. *)
Lemma weeklyEarnings_rounded_witness :
  exists (ip fp : string) (a b : Z),
    calculateWeeklyEarnings (fullWeek 15) =
      Some (floatSign (weeklyTotal (fullWeek 15)) ++ ip ++ "." ++ fp)%string /\
    String.length fp = 2%nat /\
    decimalValue ip = Some a /\
    decimalValue fp = Some b /\
    (Qabs (inject_Z a + inject_Z b / 100 - (5277655813324800 # 8796093022208))
       <= 1 # 200)%Q.
Proof.
  apply (weeklyEarnings_rounded (fullWeek 15) (5277655813324800 # 8796093022208)).
  - vm_compute. reflexivity.
  - vm_compute. reflexivity.
Defined.

Example weeklyEarnings_600 : calculateWeeklyEarnings (fullWeek 15) = Some "600.00"%string.
Proof. vm_compute. reflexivity. Qed.

Lemma not_twoDecimals_Infinity : ~ twoDecimals (Some "Infinity"%string).
Proof.
  intros (sign & ip & fp & Heq & Hsign & [a Ha] & _).
  injection Heq as Heq.
  destruct Hsign as [-> | ->]; [ | discriminate].
  destruct ip as [ | c ip]; [discriminate | ].
  injection Heq as <- _. discriminate.
Qed.

(** C7 as stated fails where the total leaves the range [toFixed] renders
    with two decimals.  At a rate of 1e308 the total of five eight-hour days
    overflows to Infinity and the text displayed is [Infinity]; at a rate of
    1e21 the total is 4e22 and [toFixed] answers in exponent notation. *)
Lemma weeklyEarnings_not_two_decimals :
  calculateWeeklyEarnings (fullWeek 1e308) = Some "Infinity"%string /\
  ~ twoDecimals (calculateWeeklyEarnings (fullWeek 1e308)) /\
  calculateWeeklyEarnings (fullWeek 1e21) = None.
Proof.
  assert (H : calculateWeeklyEarnings (fullWeek 1e308) = Some "Infinity"%string)
    by (vm_compute; reflexivity).
  split; [exact H | ]. split; [rewrite H; exact not_twoDecimals_Infinity | ].
  vm_compute. reflexivity.
Qed.

Example ref_parse_epoch : Ref.Date_parse "1970-01-01T00:00:00.000Z" = Some 0.
Proof. vm_compute. reflexivity. Qed.
Example ref_parse_2026 : Ref.Date_parse (Js.isoOfTime 1793688245123) = Some 1793688245123.
Proof. vm_compute. reflexivity. Qed.
Example ref_parse_neg : Ref.Date_parse (Js.isoOfTime (-62167219200001)) = Some (-62167219200001).
Proof. vm_compute. reflexivity. Qed.
Example ref_parse_max : Ref.Date_parse (Js.isoOfTime Js.maxTime) = Some Js.maxTime.
Proof. vm_compute. reflexivity. Qed.
Example ref_parse_min : Ref.Date_parse (Js.isoOfTime (- Js.maxTime)) = Some (- Js.maxTime).
Proof. vm_compute. reflexivity. Qed.
Example ref_parse_feb30 : Ref.Date_parse "2021-02-30T00:00:00.000Z" = None.
Proof. vm_compute. reflexivity. Qed.
Example ref_parse_junk : Ref.Date_parse "yesterday" = None.
Proof. vm_compute. reflexivity. Qed.

Example ref_stringify_initial :
  Ref.JSON_parse (Ref.JSON_stringify getInitialData) = Some getInitialData.
Proof. vm_compute. reflexivity. Qed.

Example ref_stringify_session :
  let s := handleClockOut (fun _ => 0) 1793688245123
             (setHourlyRate 0.1 (handleClockIn 1793659445000 (initialState 0))) in
  Ref.JSON_parse (Ref.JSON_stringify (dataToStore s)) = Some (dataToStore s).
Proof. vm_compute. reflexivity. Qed.

Example ref_parse_empty : Ref.JSON_parse "" = None.
Proof. reflexivity. Qed.

Example ref_parse_truncated : Ref.JSON_parse "{oops" = None.
Proof. reflexivity. Qed.

(* ------------------------------------------------------------------------- *)
(** ** Saving and loading *)

Lemma append_nonempty (s1 s2 : string) (c : ascii) :
  String.eqb (s1 ++ String c s2) "" = false.
Proof. destruct s1; reflexivity. Qed.

Lemma isoOfTime_nonempty (t : Z) : String.eqb (Js.isoOfTime t) "" = false.
Proof.
  unfold Js.isoOfTime. destruct (Js.civilFromDays (t / Js.msPerDay)) as [[y mo] d].
  apply append_nonempty.
Qed.

Lemma isoOrNull_Some (t : Z) : isoOrNull (Some t) = Some (Js.isoOfTime t).
Proof. unfold isoOrNull. now rewrite isoOfTime_nonempty. Qed.

Section SaveLoad.
Variable JSON_parse : string -> option StoredData.
Variable JSON_stringify : StoredData -> string.
Variable Date_parse : string -> option Z.

Lemma normalizeTime_saved (d : option Z) :
  (forall t, d = Some t -> Date_parse (Js.isoOfTime t) = Some t) ->
  normalizeTime Date_parse (isoOrNull d) = Js.Return (isoOrNull d).
Proof.
  intros Hlaw. destruct d as [t | ]; [ | reflexivity].
  rewrite isoOrNull_Some. unfold normalizeTime.
  rewrite isoOfTime_nonempty, (Hlaw t eq_refl). reflexivity.
Qed.

Lemma loadTime_saved (d : option Z) :
  (forall t, d = Some t -> Date_parse (Js.isoOfTime t) = Some t) ->
  loadTime Date_parse (isoOrNull d) None = Some d.
Proof.
  intros Hlaw. destruct d as [t | ]; [ | reflexivity].
  rewrite isoOrNull_Some. unfold loadTime.
  rewrite isoOfTime_nonempty, (Hlaw t eq_refl). reflexivity.
Qed.

Lemma normalizeStored_saved (s : State) :
  (forall t, clockInTime s = Some t \/ clockOutTime s = Some t ->
             Date_parse (Js.isoOfTime t) = Some t) ->
  normalizeStored Date_parse (dataToStore s) = Js.Return (dataToStore s).
Proof.
  intros Hlaw. unfold normalizeStored, dataToStore. simpl.
  rewrite !normalizeTime_saved by (intros t Ht; apply Hlaw; tauto).
  reflexivity.
Qed.

Lemma loadEffect_saved (s : State) (now : Z) :
  (forall t, clockInTime s = Some t \/ clockOutTime s = Some t ->
             Date_parse (Js.isoOfTime t) = Some t) ->
  loadEffect Date_parse (dataToStore s) (initialState now) = Some (displayTick now s).
Proof.
  intros Hlaw. unfold loadEffect, dataToStore. simpl.
  rewrite !loadTime_saved by (intros t Ht; apply Hlaw; tauto).
  reflexivity.
Qed.
End SaveLoad.

(** C5, as the code has it.  Take the text [saveToStorage] writes for a
    state [s].  When [JSON.parse] gives back the record that was written, as
    it does for finite numbers other than negative zero, and [Date.parse]
    gives back the time of each timestamp of [s] from its ISO string, as it
    does for every valid date, [loadStoredData] returns the record that was
    saved (a null timestamp stays null), mounting over the text yields [s]
    again, fields equal to the millisecond, with [currentTime] the instant of
    the mount, and saving the loaded state writes the same text. *)
Theorem save_load_roundtrip
    (JSON_parse : string -> option StoredData)
    (JSON_stringify : StoredData -> string)
    (Date_parse : string -> option Z) (s : State) (now : Z) :
  let text := saveToStorage JSON_stringify (dataToStore s) in
  text <> ""%string ->
  JSON_parse text = Some (dataToStore s) ->
  (forall t, clockInTime s = Some t \/ clockOutTime s = Some t ->
             Date_parse (Js.isoOfTime t) = Some t) ->
  loadStoredData JSON_parse Date_parse true (Some text) = Js.Return (dataToStore s) /\
  mount JSON_parse Date_parse now (Some text) = Js.Return (Some (displayTick now s)) /\
  saveToStorage JSON_stringify (dataToStore (displayTick now s)) = text /\
  (clockInTime s = None -> sd_clockInTime (dataToStore s) = None) /\
  (clockOutTime s = None -> sd_clockOutTime (dataToStore s) = None).
Proof.
  intros text Hne Hparse Hlaw.
  assert (Hload : loadStoredData JSON_parse Date_parse true (Some text)
                  = Js.Return (dataToStore s)).
  { unfold loadStoredData. simpl negb. cbv iota.
    destruct (String.eqb_spec text "") as [E | _]; [contradiction | ].
    rewrite Hparse. now apply normalizeStored_saved. }
  split; [exact Hload | ].
  split; [unfold mount; rewrite Hload; simpl; now rewrite loadEffect_saved | ].
  split; [reflexivity | ].
  split; intros H; simpl; now rewrite H.
Qed.

(** A session from 2026-11-02 22:44:05 to 2026-11-03 06:44:05.123 UTC at a
    rate of 12.5, saved and loaded with the reference built-ins. *)
Lemma save_load_roundtrip_witness :
  let s := handleClockOut (fun _ => 0) 1793688245123
             (setHourlyRate 12.5 (handleClockIn 1793659445000 (initialState 0))) in
  mount Ref.JSON_parse Ref.Date_parse 1793700000000
    (Some (saveToStorage Ref.JSON_stringify (dataToStore s)))
  = Js.Return (Some (displayTick 1793700000000 s)).
Proof.
  intros s.
  refine (proj1 (proj2 (save_load_roundtrip Ref.JSON_parse Ref.JSON_stringify
                          Ref.Date_parse s 1793700000000 _ _ _))).
  - vm_compute. discriminate.
  - vm_compute. reflexivity.
  - intros t [H | H]; vm_compute in H; injection H as <-; vm_compute; reflexivity.
Defined.

Lemma negative_zero_differs : (-0)%float <> 0%float.
Proof.
  intros E. apply (f_equal Prim2SF) in E. vm_compute in E. discriminate.
Qed.

(** C5 as stated fails at an hourly rate of negative zero, which the rate
    input yields for the text [-0]: [JSON.stringify] writes it [0], and the
    state loaded back has the rate positive zero, not the one saved. *)
Lemma save_load_negative_zero :
  let s := setHourlyRate (-0) (initialState 0) in
  Ref.JSON_stringify (dataToStore s)
  = Ref.JSON_stringify (dataToStore (setHourlyRate 0 (initialState 0))) /\
  mount Ref.JSON_parse Ref.Date_parse 0
    (Some (saveToStorage Ref.JSON_stringify (dataToStore s)))
  = Js.Return (Some (setHourlyRate 0 (initialState 0))) /\
  setHourlyRate 0 (initialState 0) <> s.
Proof.
  split; [vm_compute; reflexivity | ].
  split; [vm_compute; reflexivity | ].
  intros E. apply (f_equal hourlyRate) in E. simpl in E.
  apply negative_zero_differs. now symmetry.
Qed.

(** C6, as the code has it.  A stored text that is not empty and that
    [JSON.parse] rejects makes [loadStoredData] raise the [SyntaxError]: no
    defaults are returned for it.  The defaults are what it returns when
    nothing is stored and when the stored text is empty. *)
Theorem load_malformed_throws
    (JSON_parse : string -> option StoredData)
    (Date_parse : string -> option Z) (text : string) :
  text <> ""%string ->
  JSON_parse text = None ->
  loadStoredData JSON_parse Date_parse true (Some text) = Js.Throw Js.SyntaxError /\
  loadStoredData JSON_parse Date_parse true None = Js.Return getInitialData /\
  loadStoredData JSON_parse Date_parse true (Some ""%string) = Js.Return getInitialData.
Proof.
  intros Hne Hparse. split; [ | split; reflexivity].
  unfold loadStoredData. simpl negb. cbv iota.
  destruct (String.eqb_spec text "") as [E | _]; [contradiction | ].
  now rewrite Hparse.
Qed.

Lemma load_malformed_throws_witness :
  loadStoredData Ref.JSON_parse Ref.Date_parse true (Some "{oops"%string)
  = Js.Throw Js.SyntaxError.
Proof.
  refine (proj1 (load_malformed_throws Ref.JSON_parse Ref.Date_parse "{oops" _ _)).
  - discriminate.
  - reflexivity.
Defined.

(** Defaults are returned when nothing is stored, and for any built-ins. *)
Lemma load_absent_defaults
    (JSON_parse : string -> option StoredData)
    (Date_parse : string -> option Z) :
  loadStoredData JSON_parse Date_parse true None = Js.Return getInitialData.
Proof. reflexivity. Qed.

(** C6 as stated fails on the empty text: it is stored, it is not JSON, and
    [loadStoredData] returns the defaults without reaching [JSON.parse]. *)
Lemma load_empty_text_defaults :
  Ref.JSON_parse "" = None /\
  loadStoredData Ref.JSON_parse Ref.Date_parse true (Some ""%string)
  = Js.Return getInitialData.
Proof. split; reflexivity. Qed.

(* ------------------------------------------------------------------------- *)
(** ** Invariants of the running component *)

Example demo_runs :
  run (fun _ => 0) Ref.Date_parse demoEvents (initialSystem 0) = Some demoSystem
  /\ weeklyHours (comp demoSystem) = [8; 0; 0; 0; 0]%float
  /\ clockInTime (comp demoSystem) = Some 378000000
  /\ clockOutTime (comp demoSystem) = Some 406800000.
Proof. vm_compute. repeat split; reflexivity. Qed.

Lemma normalizeStored_fields (dp : string -> option Z) (d d' : StoredData) :
  normalizeStored dp d = Js.Return d' ->
  sd_totalWorkedToday d' = sd_totalWorkedToday d /\
  sd_weeklyHours d' = sd_weeklyHours d /\
  sd_hourlyRate d' = sd_hourlyRate d.
Proof.
  unfold normalizeStored.
  destruct (normalizeTime dp (sd_clockInTime d)); [ | discriminate].
  destruct (normalizeTime dp (sd_clockOutTime d)); [ | discriminate].
  simpl. intros [= <-]. auto.
Qed.

Lemma loadEffect_fields (dp : string -> option Z) (d : StoredData) (s c : State) :
  loadEffect dp d s = Some c ->
  totalWorkedToday c = sd_totalWorkedToday d /\
  weeklyHours c = sd_weeklyHours d /\
  hourlyRate c = sd_hourlyRate d.
Proof.
  unfold loadEffect.
  destruct (loadTime dp (sd_clockInTime d) (clockInTime s)); [ | discriminate].
  destruct (loadTime dp (sd_clockOutTime d) (clockOutTime s)); [ | discriminate].
  intros [= <-]. auto.
Qed.

Lemma handleClockOut_length (tz : Z -> Z) (now : Z) (s : State) :
  length (weeklyHours s) = 5%nat ->
  length (weeklyHours (handleClockOut tz now s)) = 5%nat.
Proof.
  intros Hlen. simpl. unfold weeklyAfterClockOut.
  destruct (clockInTime s); [ | exact Hlen].
  cbv zeta.
  destruct (Z.leb_spec 0 (todayIndex tz now)); [ | exact Hlen].
  destruct (Z.ltb_spec (todayIndex tz now) 5); [ | exact Hlen].
  simpl. rewrite array_set_in_range by lia. now rewrite length_insert.
Qed.

Lemma fiveEntries_saved (c : State) :
  length (weeklyHours c) = 5%nat -> fiveEntries (saved c).
Proof. intros Hlen. split; [exact Hlen | ]. simpl. now intros d [= <-]. Qed.

Lemma fire_fiveEntries (tz : Z -> Z) (dp : string -> option Z)
    (e : event) (sys sys' : System) :
  fiveEntries sys -> fire tz dp e sys = Some sys' -> fiveEntries sys'.
Proof.
  intros [Hc Hs] Hfire. destruct e as [now | now | now | now | | rate]; simpl in Hfire.
  - destruct (loadRecord dp (stored sys)) as [d | ] eqn:Hload; [ | discriminate].
    destruct (loadEffect dp d (initialState now)) as [c | ] eqn:Heff; [ | discriminate].
    injection Hfire as <-. apply fiveEntries_saved.
    apply loadEffect_fields in Heff as (_ & -> & _).
    unfold loadRecord in Hload. destruct (stored sys) as [d0 | ].
    + apply normalizeStored_fields in Hload as (_ & -> & _). now apply Hs.
    + injection Hload as <-. reflexivity.
  - destruct (clockInDisabled tz (comp sys)); [discriminate | ].
    injection Hfire as <-. now apply fiveEntries_saved.
  - destruct (clockOutDisabled (comp sys)); [discriminate | ].
    injection Hfire as <-. apply fiveEntries_saved. now apply handleClockOut_length.
  - injection Hfire as <-. split; assumption.
  - destruct (activeSessionb (comp sys)); [ | discriminate].
    injection Hfire as <-. now apply fiveEntries_saved.
  - injection Hfire as <-. now apply fiveEntries_saved.
Qed.

Lemma run_fiveEntries (tz : Z -> Z) (dp : string -> option Z)
    (es : list event) (sys sys' : System) :
  fiveEntries sys -> run tz dp es sys = Some sys' -> fiveEntries sys'.
Proof.
  revert sys. induction es as [ | e es IH]; intros sys Hinv; simpl.
  - now intros [= <-].
  - destruct (fire tz dp e sys) as [sys1 | ] eqn:Hfire; [ | discriminate].
    apply IH. eapply fire_fiveEntries; eauto.
Qed.

(** C9.  In every state reachable from a first run, [weeklyHours] has five
    entries, in the component and in the stored record; the first render
    provides five zeros, and every event that can fire from the state (page
    load, clock-in, clock-out, either tick, rate edit) leads to a state with
    five entries again. *)
Theorem weeklyHours_five_entries (tz : Z -> Z) (dp : string -> option Z)
    (sys : System) :
  reachable tz dp sys ->
  length (weeklyHours (comp sys)) = 5%nat /\
  (forall d, stored sys = Some d -> length (sd_weeklyHours d) = 5%nat) /\
  (forall now, weeklyHours (initialState now) = [0; 0; 0; 0; 0]%float) /\
  (forall e sys', fire tz dp e sys = Some sys' ->
     length (weeklyHours (comp sys')) = 5%nat).
Proof.
  intros (now & es & Hrun).
  assert (Hinv : fiveEntries sys).
  { eapply run_fiveEntries; [ | exact Hrun]. split; [reflexivity | discriminate]. }
  destruct Hinv as [Hc Hs].
  split; [exact Hc | ]. split; [exact Hs | ]. split; [reflexivity | ].
  intros e sys' Hfire.
  now destruct (fire_fiveEntries tz dp e sys sys' (conj Hc Hs) Hfire).
Qed.

Lemma weeklyHours_five_entries_witness :
  length (weeklyHours (comp demoSystem)) = 5%nat.
Proof.
  refine (proj1 (weeklyHours_five_entries (fun _ => 0) Ref.Date_parse demoSystem _)).
  exists 0, demoEvents. vm_compute. reflexivity.
Defined.

(** *** [clockInTime] is never cleared *)

Lemma fire_mirrored (tz : Z -> Z) (dp : string -> option Z)
    (e : event) (sys sys' : System) :
  mirrored sys -> fire tz dp e sys = Some sys' -> mirrored sys'.
Proof.
  intros Hm Hfire. destruct e as [now | now | now | now | | rate]; simpl in Hfire.
  - destruct (loadRecord dp (stored sys)); [ | discriminate].
    destruct (loadEffect dp a (initialState now)); [ | discriminate].
    injection Hfire as <-. now left.
  - destruct (clockInDisabled tz (comp sys)); [discriminate | ].
    injection Hfire as <-. now left.
  - destruct (clockOutDisabled (comp sys)); [discriminate | ].
    injection Hfire as <-. now left.
  - injection Hfire as <-. exact Hm.
  - destruct (activeSessionb (comp sys)); [ | discriminate].
    injection Hfire as <-. now left.
  - injection Hfire as <-. now left.
Qed.

Lemma normalizeTime_iso (dp : string -> option Z) (t : Z) (r : option string) :
  normalizeTime dp (Some (Js.isoOfTime t)) = Js.Return r ->
  exists t', r = Some (Js.isoOfTime t').
Proof.
  unfold normalizeTime. rewrite isoOfTime_nonempty.
  destruct (dp (Js.isoOfTime t)) as [t' | ]; simpl; [ | discriminate].
  intros [= <-]. now exists t'.
Qed.

Lemma loadTime_iso (dp : string -> option Z) (t : Z) (cell r : option Z) :
  loadTime dp (Some (Js.isoOfTime t)) cell = Some r -> is_Some r.
Proof.
  unfold loadTime. rewrite isoOfTime_nonempty.
  destruct (dp (Js.isoOfTime t)) as [t' | ]; [ | discriminate].
  intros [= <-]. now exists t'.
Qed.

(** The load effect on any state: a set [clockInTime] stays set. *)
Lemma loadTime_keeps (dp : string -> option Z) (ts : option string)
    (cell r : option Z) :
  loadTime dp ts cell = Some r -> is_Some cell -> is_Some r.
Proof.
  unfold loadTime. destruct ts as [str | ]; [ | now intros [= <-]].
  destruct (String.eqb str ""); [now intros [= <-] | ].
  destruct (dp str) as [t | ]; [ | discriminate].
  intros [= <-] _. now exists t.
Qed.

Lemma loadEffect_keeps_clockIn (dp : string -> option Z) (d : StoredData)
    (s c : State) :
  loadEffect dp d s = Some c -> is_Some (clockInTime s) -> is_Some (clockInTime c).
Proof.
  unfold loadEffect.
  destruct (loadTime dp (sd_clockInTime d) (clockInTime s)) as [cin | ] eqn:Hin;
    [ | discriminate].
  destruct (loadTime dp (sd_clockOutTime d) (clockOutTime s)); [ | discriminate].
  intros [= <-] Hset. simpl. eapply loadTime_keeps; eauto.
Qed.

(** A page load over a record saved with both timestamps set. *)
Lemma mount_keeps_times (dp : string -> option Z) (c : State) (now : Z)
    (d : StoredData) (c' : State) :
  normalizeStored dp (dataToStore c) = Js.Return d ->
  loadEffect dp d (initialState now) = Some c' ->
  (is_Some (clockInTime c) -> is_Some (clockInTime c')) /\
  (is_Some (clockOutTime c) -> is_Some (clockOutTime c')).
Proof.
  unfold normalizeStored, loadEffect, dataToStore. simpl.
  destruct (normalizeTime dp (isoOrNull (clockInTime c))) as [cin | ] eqn:Hin;
    [ | discriminate].
  destruct (normalizeTime dp (isoOrNull (clockOutTime c))) as [cout | ] eqn:Hout;
    [ | discriminate].
  simpl. intros [= <-]. simpl.
  destruct (loadTime dp cin None) as [cin' | ] eqn:Hin'; [ | discriminate].
  destruct (loadTime dp cout None) as [cout' | ] eqn:Hout'; [ | discriminate].
  intros [= <-]. simpl. split.
  - intros [t Ht]. rewrite Ht, isoOrNull_Some in Hin.
    apply normalizeTime_iso in Hin as [t' ->]. eapply loadTime_iso; eauto.
  - intros [t Ht]. rewrite Ht, isoOrNull_Some in Hout.
    apply normalizeTime_iso in Hout as [t' ->]. eapply loadTime_iso; eauto.
Qed.

Lemma activeSessionb_spec (s : State) :
  activeSessionb s = true <-> activeSession s.
Proof.
  unfold activeSessionb, activeSession.
  destruct (clockInTime s) as [cin | ], (clockOutTime s) as [cout | ]; split;
    try discriminate; try (intros [[x Hx] Hy]; discriminate); auto.
Qed.

Lemma clockInDisabled_when_set (tz : Z -> Z) (s : State) :
  is_Some (clockInTime s) -> clockInDisabled tz s = true.
Proof. intros [t Ht]. unfold clockInDisabled. now rewrite Ht. Qed.

Lemma fire_keeps_times (tz : Z -> Z) (dp : string -> option Z)
    (e : event) (sys sys' : System) :
  mirrored sys -> is_Some (clockInTime (comp sys)) ->
  fire tz dp e sys = Some sys' ->
  is_Some (clockInTime (comp sys')) /\
  (is_Some (clockOutTime (comp sys)) -> is_Some (clockOutTime (comp sys'))).
Proof.
  intros Hm Hin Hfire.
  destruct e as [now | now | now | now | | rate]; simpl in Hfire.
  - destruct Hm as [Hst | (_ & Hnone & _)];
      [ | rewrite Hnone in Hin; now destruct Hin].
    rewrite Hst in Hfire. simpl in Hfire.
    destruct (normalizeStored dp (dataToStore (comp sys))) as [d | ] eqn:Hload;
      [ | discriminate].
    destruct (loadEffect dp d (initialState now)) as [c | ] eqn:Heff; [ | discriminate].
    injection Hfire as <-. simpl.
    destruct (mount_keeps_times dp (comp sys) now d c Hload Heff) as [H1 H2].
    split; auto.
  - rewrite (clockInDisabled_when_set tz _ Hin) in Hfire. discriminate.
  - destruct (clockOutDisabled (comp sys)); [discriminate | ].
    injection Hfire as <-. simpl. split; [exact Hin | intros _; now eexists].
  - injection Hfire as <-. simpl. split; [exact Hin | auto].
  - destruct (activeSessionb (comp sys)); [ | discriminate].
    injection Hfire as <-. simpl. split; [exact Hin | auto].
  - injection Hfire as <-. simpl. split; [exact Hin | auto].
Qed.

Lemma run_mirrored (tz : Z -> Z) (dp : string -> option Z)
    (es : list event) (sys sys' : System) :
  mirrored sys -> run tz dp es sys = Some sys' -> mirrored sys'.
Proof.
  revert sys. induction es as [ | e es IH]; intros sys Hm; simpl.
  - now intros [= <-].
  - destruct (fire tz dp e sys) as [sys1 | ] eqn:Hfire; [ | discriminate].
    apply IH. eapply fire_mirrored; eauto.
Qed.

Lemma run_keeps_times (tz : Z -> Z) (dp : string -> option Z)
    (es : list event) (sys sys' : System) :
  mirrored sys -> is_Some (clockInTime (comp sys)) ->
  run tz dp es sys = Some sys' ->
  is_Some (clockInTime (comp sys')) /\
  (is_Some (clockOutTime (comp sys)) -> is_Some (clockOutTime (comp sys'))).
Proof.
  revert sys. induction es as [ | e es IH]; intros sys Hm Hin; simpl.
  - intros [= <-]. auto.
  - destruct (fire tz dp e sys) as [sys1 | ] eqn:Hfire; [ | discriminate].
    intros Hrun.
    destruct (fire_keeps_times tz dp e sys sys1 Hm Hin Hfire) as [Hin1 Hout1].
    destruct (IH sys1 (fire_mirrored tz dp e sys sys1 Hm Hfire) Hin1 Hrun)
      as [Hin' Hout'].
    split; auto.
Qed.

(** C10.  From a reachable state with [clockInTime] set, whatever events
    follow (clock-out, ticks, rate edits, page loads), [clockInTime] is set
    in the state they lead to, and the load effect applied there leaves it
    set; so the Clock In button is disabled there and a clock-in cannot fire.
    If the session had ended, [clockOutTime] is set there too and no session
    is active: no second session starts. *)
Theorem clockInTime_never_cleared (tz : Z -> Z) (dp : string -> option Z)
    (sys sys' : System) (es : list event) :
  reachable tz dp sys ->
  is_Some (clockInTime (comp sys)) ->
  run tz dp es sys = Some sys' ->
  is_Some (clockInTime (comp sys')) /\
  (forall d c, loadEffect dp d (comp sys') = Some c -> is_Some (clockInTime c)) /\
  clockInDisabled tz (comp sys') = true /\
  (forall now, fire tz dp (ClockIn now) sys' = None) /\
  (is_Some (clockOutTime (comp sys)) ->
     is_Some (clockOutTime (comp sys')) /\ ~ activeSession (comp sys')).
Proof.
  intros (now0 & es0 & Hreach) Hin Hrun.
  assert (Hm : mirrored sys).
  { eapply run_mirrored; [ | exact Hreach]. right. repeat split. }
  destruct (run_keeps_times tz dp es sys sys' Hm Hin Hrun) as [Hin' Hout'].
  pose proof (clockInDisabled_when_set tz _ Hin') as Hdis.
  split; [exact Hin' | ].
  split; [intros d c Heff; eapply loadEffect_keeps_clockIn; eauto | ].
  split; [exact Hdis | ].
  split; [intros now; simpl; now rewrite Hdis | ].
  intros Hout. split; [auto | ].
  intros [_ Hnone]. destruct (Hout' Hout) as [t Ht]. congruence.
Qed.

(** The session of the demonstration run has ended; a rate edit, a reload
    and a tick later the Clock In button is still disabled. *)
Lemma clockInTime_never_cleared_witness :
  is_Some (clockInTime (comp demoSystem)) /\
  clockInDisabled (fun _ => 0) (comp demoSystem) = true /\
  ~ activeSession (comp demoSystem).
Proof.
  destruct (clockInTime_never_cleared (fun _ => 0) Ref.Date_parse
              demoEnded demoSystem laterEvents) as (H1 & _ & H3 & _ & H5).
  - exists 0, sessionEvents. vm_compute. reflexivity.
  - vm_compute. eexists. reflexivity.
  - vm_compute. reflexivity.
  - split; [exact H1 | ]. split; [exact H3 | ].
    apply H5. vm_compute. eexists. reflexivity.
Defined.

(* ------------------------------------------------------------------------- *)
(** ** The reference [Date.parse] reads back what [toISOString] writes *)

Lemma daysFromCivil_civilFromDays (z y m d : Z) :
  Js.civilFromDays z = (y, m, d) ->
  Js.daysFromCivil y m d = z /\ 1 <= m <= 12 /\ 1 <= d <= 31.
Proof.
  unfold Js.civilFromDays. cbv zeta.
  set (era := (z + 719468) / 146097).
  set (doe := z + 719468 - era * 146097).
  set (yoe := (doe - doe / 1460 + doe / 36524 - doe / 146096) / 365).
  set (doy := doe - (365 * yoe + yoe / 4 - yoe / 100)).
  set (mp := (5 * doy + 2) / 153).
  assert (Hdoe : 0 <= doe < 146097).
  { subst doe era. Z.div_mod_to_equations. lia. }
  assert (Hy : 0 <= yoe <= 399 /\ 0 <= doy <= 365).
  { subst doy yoe. clearbody doe. Z.div_mod_to_equations. lia. }
  assert (Hm : 0 <= mp <= 11 /\ 1 <= doy - (153 * mp + 2) / 5 + 1 <= 31).
  { subst mp. clearbody doy. Z.div_mod_to_equations. lia. }
  intros [= <- <- <-].
  unfold Js.daysFromCivil. cbv zeta.
  destruct (Z.ltb_spec mp 10) as [Hlt | Hge].
  - destruct (Z.leb_spec (mp + 3) 2); [lia | ].
    destruct (Z.ltb_spec 2 (mp + 3)); [ | lia].
    replace (yoe + era * 400 + 0) with (yoe + era * 400) by lia.
    replace ((yoe + era * 400) / 400) with era by (Z.div_mod_to_equations; lia).
    replace (yoe + era * 400 - era * 400) with yoe by lia.
    replace (mp + 3 - 3) with mp by lia.
    split; [ | lia]. subst doy doe. lia.
  - destruct (Z.leb_spec (mp - 9) 2); [ | lia].
    destruct (Z.ltb_spec 2 (mp - 9)); [lia | ].
    replace (yoe + era * 400 + 1 - 1) with (yoe + era * 400) by lia.
    replace ((yoe + era * 400) / 400) with era by (Z.div_mod_to_equations; lia).
    replace (yoe + era * 400 - era * 400) with yoe by lia.
    replace (mp - 9 + 9) with mp by lia.
    split; [ | lia]. subst doy doe. lia.
Qed.

Lemma civilFromDays_year_bound (z y m d : Z) :
  Js.civilFromDays z = (y, m, d) ->
  - 100000001 <= z <= 100000001 -> - 999999 <= y <= 999999.
Proof.
  unfold Js.civilFromDays. cbv zeta.
  set (era := (z + 719468) / 146097).
  set (doe := z + 719468 - era * 146097).
  set (yoe := (doe - doe / 1460 + doe / 36524 - doe / 146096) / 365).
  set (doy := doe - (365 * yoe + yoe / 4 - yoe / 100)).
  set (mp := (5 * doy + 2) / 153).
  assert (Hdoe : 0 <= doe < 146097).
  { subst doe era. Z.div_mod_to_equations. lia. }
  assert (Hy : 0 <= yoe <= 399).
  { subst yoe. clearbody doe. Z.div_mod_to_equations. lia. }
  intros [= <- _ _] Hz.
  assert (He : - 700 <= era <= 700) by (subst era; Z.div_mod_to_equations; lia).
  destruct (_ <=? 2); lia.
Qed.

Lemma length_pad (n : nat) (z : Z) :
  (1 <= n)%nat -> 0 <= z < 10 ^ Z.of_nat n -> String.length (Js.pad n z) = n.
Proof.
  intros Hn Hz. unfold Js.pad. rewrite length_padStart.
  pose proof (length_toString_le n z Hn Hz). lia.
Qed.

Lemma substring_app_prefix (a b : string) :
  substring 0 (String.length a) (a ++ b) = a.
Proof. induction a as [ | c a IH]; simpl; [now destruct b | now rewrite IH]. Qed.

Lemma substring_app_suffix (a b : string) :
  substring (String.length a) (String.length (a ++ b) - String.length a) (a ++ b) = b.
Proof.
  induction a as [ | c a IH]; simpl.
  - rewrite Nat.sub_0_r. clear. induction b; simpl; congruence.
  - exact IH.
Qed.

Lemma digitsValue_pad (n : nat) (z : Z) :
  0 <= z -> digitsValue 0 (Js.pad n z) = Some z.
Proof. intros Hz. now apply decimalValue_pad. Qed.

Lemma pad2_shape (z : Z) :
  0 <= z < 100 ->
  exists a b : ascii,
    Js.pad 2 z = String a (String b "") /\
    digitsValue 0 (String a (String b "")) = Some z.
Proof.
  intros Hz. pose proof (length_pad 2 z ltac:(lia) ltac:(simpl; lia)) as Hlen.
  pose proof (digitsValue_pad 2 z ltac:(lia)) as Hval.
  destruct (Js.pad 2 z) as [ | a [ | b [ | c rest]]]; try discriminate.
  now exists a, b.
Qed.

Lemma pad3_shape (z : Z) :
  0 <= z < 1000 ->
  exists a b c : ascii,
    Js.pad 3 z = String a (String b (String c "")) /\
    digitsValue 0 (String a (String b (String c ""))) = Some z.
Proof.
  intros Hz. pose proof (length_pad 3 z ltac:(lia) ltac:(simpl; lia)) as Hlen.
  pose proof (digitsValue_pad 3 z ltac:(lia)) as Hval.
  destruct (Js.pad 3 z) as [ | a [ | b [ | c [ | e rest]]]]; try discriminate.
  now exists a, b, c.
Qed.

Lemma parseAfterYear_written (y mo d h mi sec ms : Z) :
  1 <= mo <= 12 -> 1 <= d <= 31 ->
  0 <= h <= 23 -> 0 <= mi <= 59 -> 0 <= sec <= 59 -> 0 <= ms <= 999 ->
  Js.civilFromDays (Js.daysFromCivil y mo d) = (y, mo, d) ->
  let t := Js.daysFromCivil y mo d * Js.msPerDay + h * Js.msPerHour + mi * 60000
           + sec * 1000 + ms in
  - Js.maxTime <= t <= Js.maxTime ->
  Ref.parseAfterYear y
    ("-" ++ Js.pad 2 mo ++ "-" ++ Js.pad 2 d ++ "T" ++ Js.pad 2 h ++ ":" ++
     Js.pad 2 mi ++ ":" ++ Js.pad 2 sec ++ "." ++ Js.pad 3 ms ++ "Z")%string
  = Some t.
Proof.
  intros Hmo Hd Hh Hmi Hsec Hms Hciv t Ht.
  destruct (pad2_shape mo ltac:(lia)) as (a1 & a2 & -> & Vmo).
  destruct (pad2_shape d ltac:(lia)) as (b1 & b2 & -> & Vd).
  destruct (pad2_shape h ltac:(lia)) as (c1 & c2 & -> & Vh).
  destruct (pad2_shape mi ltac:(lia)) as (d1 & d2 & -> & Vmi).
  destruct (pad2_shape sec ltac:(lia)) as (e1 & e2 & -> & Vsec).
  destruct (pad3_shape ms ltac:(lia)) as (f1 & f2 & f3 & -> & Vms).
  unfold Ref.parseAfterYear, Ref.fieldAt, Ref.sepAt.
  cbn [append substring String.length Nat.eqb String.eqb Ascii.eqb Bool.eqb andb].
  rewrite Vmo, Vd, Vh, Vmi, Vsec, Vms. cbv zeta. fold t.
  rewrite Hciv, !Z.eqb_refl.
  replace (1 <=? mo) with true by (symmetry; apply Z.leb_le; lia).
  replace (mo <=? 12) with true by (symmetry; apply Z.leb_le; lia).
  replace (1 <=? d) with true by (symmetry; apply Z.leb_le; lia).
  replace (d <=? 31) with true by (symmetry; apply Z.leb_le; lia).
  replace (h <=? 23) with true by (symmetry; apply Z.leb_le; lia).
  replace (mi <=? 59) with true by (symmetry; apply Z.leb_le; lia).
  replace (sec <=? 59) with true by (symmetry; apply Z.leb_le; lia).
  replace (- Js.maxTime <=? t) with true by (symmetry; apply Z.leb_le; lia).
  replace (t <=? Js.maxTime) with true by (symmetry; apply Z.leb_le; lia).
  reflexivity.
Qed.

Lemma substring_prefix_of_length (a b : string) (n : nat) :
  String.length a = n -> substring 0 n (a ++ b) = a.
Proof. intros <-. apply substring_app_prefix. Qed.

Lemma substring_suffix_of_length (a b : string) (n : nat) :
  String.length a = n -> substring n (String.length (a ++ b) - n) (a ++ b) = b.
Proof. intros <-. apply substring_app_suffix. Qed.

Lemma Date_parse_digit_first (a : ascii) (s : string) :
  is_Some (digitOf a) ->
  Ref.Date_parse (String a s) =
    match Ref.fieldAt (String a s) 0 4 with
    | Some y => Ref.parseAfterYear y
                  (substring 4 (String.length (String a s) - 4) (String a s))
    | None => None
    end.
Proof.
  intros [k Hk].
  destruct a as [[] [] [] [] [] [] [] []]; try (vm_compute in Hk; discriminate);
    reflexivity.
Qed.

(** Every valid time value is read back from its ISO string. *)
Lemma Date_parse_isoOfTime (t : Z) :
  Js.validTime t -> Ref.Date_parse (Js.isoOfTime t) = Some t.
Proof.
  unfold Js.validTime, Js.maxTime. intros Ht. unfold Js.isoOfTime.
  destruct (Js.civilFromDays (t / Js.msPerDay)) as [[y mo] d] eqn:E.
  destruct (daysFromCivil_civilFromDays _ _ _ _ E) as (Hinv & Hmo & Hd).
  assert (Hy : - 999999 <= y <= 999999).
  { apply (civilFromDays_year_bound _ _ _ _ E).
    unfold Js.msPerDay. Z.div_mod_to_equations. lia. }
  assert (Hciv : Js.civilFromDays (Js.daysFromCivil y mo d) = (y, mo, d))
    by (now rewrite Hinv).
  set (r := t mod Js.msPerDay).
  assert (Hr : 0 <= r < 86400000) by (apply Z.mod_pos_bound; reflexivity).
  pose proof (parseAfterYear_written y mo d (r / Js.msPerHour) (r / 60000 mod 60)
                (r / 1000 mod 60) (r mod 1000)) as Hrest.
  cbv zeta in Hrest.
  assert (Ht' : Js.daysFromCivil y mo d * Js.msPerDay + r / Js.msPerHour * Js.msPerHour
                + r / 60000 mod 60 * 60000 + r / 1000 mod 60 * 1000 + r mod 1000 = t).
  { rewrite Hinv. subst r. unfold Js.msPerDay, Js.msPerHour in *.
    Z.div_mod_to_equations. lia. }
  rewrite Ht' in Hrest.
  specialize (Hrest Hmo Hd).
  assert (Hrest' := Hrest
    ltac:(unfold Js.msPerHour; Z.div_mod_to_equations; lia)
    ltac:(Z.div_mod_to_equations; lia)
    ltac:(Z.div_mod_to_equations; lia)
    ltac:(Z.div_mod_to_equations; lia)
    Hciv ltac:(unfold Js.maxTime; lia)).
  clear Hrest.
  set (rest := ("-" ++ Js.pad 2 mo ++ "-" ++ Js.pad 2 d ++ "T" ++
                Js.pad 2 (r / Js.msPerHour) ++ ":" ++ Js.pad 2 (r / 60000 mod 60) ++
                ":" ++ Js.pad 2 (r / 1000 mod 60) ++ "." ++ Js.pad 3 (r mod 1000) ++
                "Z")%string) in *.
  unfold Js.isoYear.
  destruct (Z.leb_spec 0 y) as [Hy0 | Hy0]; [destruct (Z.leb_spec y 9999) as [Hy1 | Hy1] | ];
    cbn [andb].
  - pose proof (length_pad 4 y ltac:(lia) ltac:(simpl; lia)) as Hlen.
    pose proof (digitsValue_pad 4 y ltac:(lia)) as Hval.
    destruct (Js.pad 4 y) as [ | a s] eqn:Epad; [discriminate | ].
    assert (Hdig : is_Some (digitOf a)).
    { cbn [digitsValue] in Hval. destruct (digitOf a); [eauto | discriminate]. }
    change (String a s ++ rest)%string with (String a (s ++ rest)).
    rewrite (Date_parse_digit_first a (s ++ rest) Hdig).
    change (String a (s ++ rest)) with (String a s ++ rest)%string.
    unfold Ref.fieldAt.
    rewrite (substring_prefix_of_length _ rest 4 Hlen), Hval.
    now rewrite (substring_suffix_of_length _ rest 4 Hlen).
  - destruct (Z.ltb_spec y 0); [lia | ].
    pose proof (length_pad 6 (Z.abs y) ltac:(lia) ltac:(simpl; lia)) as Hlen.
    pose proof (digitsValue_pad 6 (Z.abs y) ltac:(lia)) as Hval.
    change (Ref.Date_parse (("+" ++ Js.pad 6 (Z.abs y)) ++ rest))
      with (match Ref.fieldAt (Js.pad 6 (Z.abs y) ++ rest) 0 6 with
            | Some y' => Ref.parseAfterYear y'
                (substring 6 (String.length (Js.pad 6 (Z.abs y) ++ rest) - 6)
                   (Js.pad 6 (Z.abs y) ++ rest))
            | None => None
            end).
    unfold Ref.fieldAt.
    rewrite (substring_prefix_of_length _ rest 6 Hlen), Hval.
    rewrite (substring_suffix_of_length _ rest 6 Hlen).
    now replace (Z.abs y) with y by lia.
  - destruct (Z.ltb_spec y 0); [ | lia].
    pose proof (length_pad 6 (Z.abs y) ltac:(lia) ltac:(simpl; lia)) as Hlen.
    pose proof (digitsValue_pad 6 (Z.abs y) ltac:(lia)) as Hval.
    change (Ref.Date_parse (("-" ++ Js.pad 6 (Z.abs y)) ++ rest))
      with (match Ref.fieldAt (Js.pad 6 (Z.abs y) ++ rest) 0 6 with
            | Some y' =>
                if y' =? 0 then None
                else Ref.parseAfterYear (- y')
                       (substring 6 (String.length (Js.pad 6 (Z.abs y) ++ rest) - 6)
                          (Js.pad 6 (Z.abs y) ++ rest))
            | None => None
            end).
    unfold Ref.fieldAt.
    rewrite (substring_prefix_of_length _ rest 6 Hlen), Hval.
    rewrite (substring_suffix_of_length _ rest 6 Hlen).
    destruct (Z.eqb_spec (Z.abs y) 0); [lia | ].
    now replace (- Z.abs y) with y by lia.
Qed.

(** A page load over the record the component saved restores the state, when
    [Date.parse] reads the timestamps back; so the runs above do continue
    across reloads. *)
Lemma mount_restores (tz : Z -> Z) (dp : string -> option Z)
    (sys : System) (now : Z) :
  stored sys = Some (dataToStore (comp sys)) ->
  (forall t, clockInTime (comp sys) = Some t \/ clockOutTime (comp sys) = Some t ->
             dp (Js.isoOfTime t) = Some t) ->
  fire tz dp (Mount now) sys = Some (saved (displayTick now (comp sys))).
Proof.
  intros Hst Hlaw. simpl. rewrite Hst. simpl.
  rewrite (normalizeStored_saved dp (comp sys) Hlaw).
  now rewrite (loadEffect_saved dp (comp sys) now Hlaw).
Qed.

Lemma mount_restores_reference (tz : Z -> Z) (sys : System) (now : Z) :
  stored sys = Some (dataToStore (comp sys)) ->
  (forall t, clockInTime (comp sys) = Some t \/ clockOutTime (comp sys) = Some t ->
             Js.validTime t) ->
  fire tz Ref.Date_parse (Mount now) sys = Some (saved (displayTick now (comp sys))).
Proof.
  intros Hst Hvalid. apply mount_restores; [exact Hst | ].
  intros t Ht. apply Date_parse_isoOfTime. now apply Hvalid.
Qed.

(* ------------------------------------------------------------------------- *)
(** ** What every reachable state satisfies *)

(** A page load over the record saved from [c]: the counters come back as
    saved, and each timestamp is set after the load exactly when it was set
    in [c]. *)
Lemma mount_exact (dp : string -> option Z) (c : State) (now : Z)
    (d : StoredData) (c' : State) :
  normalizeStored dp (dataToStore c) = Js.Return d ->
  loadEffect dp d (initialState now) = Some c' ->
  totalWorkedToday c' = totalWorkedToday c /\
  weeklyHours c' = weeklyHours c /\
  hourlyRate c' = hourlyRate c /\
  (clockInTime c = None -> clockInTime c' = None) /\
  (clockOutTime c = None -> clockOutTime c' = None) /\
  (is_Some (clockInTime c) -> is_Some (clockInTime c')) /\
  (is_Some (clockOutTime c) -> is_Some (clockOutTime c')).
Proof.
  intros Hload Heff.
  destruct (mount_keeps_times dp c now d c' Hload Heff) as [Hin Hout].
  destruct (normalizeStored_fields dp _ _ Hload) as (Ht & Hw & Hr).
  destruct (loadEffect_fields dp _ _ _ Heff) as (Ht' & Hw' & Hr').
  simpl in Ht, Hw, Hr.
  split; [congruence | ]. split; [congruence | ]. split; [congruence | ].
  split; [ | split; [ | split; assumption]].
  - intros Hnone. revert Hload Heff.
    unfold normalizeStored, loadEffect, dataToStore. simpl. rewrite Hnone. simpl.
    destruct (normalizeTime dp (isoOrNull (clockOutTime c))); [ | discriminate].
    simpl. intros [= <-]. simpl.
    destruct (loadTime dp a None); [ | discriminate]. now intros [= <-].
  - intros Hnone. revert Hload Heff.
    unfold normalizeStored, loadEffect, dataToStore. simpl. rewrite Hnone. simpl.
    destruct (normalizeTime dp (isoOrNull (clockInTime c))); [ | discriminate].
    simpl. intros [= <-]. simpl.
    destruct (loadTime dp a None); [ | discriminate]. now intros [= <-].
Qed.

Lemma zeroWeek_slot : exists (i : nat) (v : float), (i < 5)%nat /\ zeroWeek = <[i := v]> zeroWeek.
Proof. exists 0%nat, 0%float. split; [lia | reflexivity]. Qed.

Lemma weeklyAfterClockOut_zeroWeek (tz : Z -> Z) (now : Z) (s : State) :
  weeklyHours s = zeroWeek ->
  exists (i : nat) (v : float),
    (i < 5)%nat /\ weeklyAfterClockOut tz now s = <[i := v]> zeroWeek.
Proof.
  intros Hz. unfold weeklyAfterClockOut. rewrite Hz.
  destruct (clockInTime s) as [cin | ]; [ | apply zeroWeek_slot].
  cbv zeta.
  destruct (Z.leb_spec 0 (todayIndex tz now)); [ | apply zeroWeek_slot].
  destruct (Z.ltb_spec (todayIndex tz now) 5); [ | apply zeroWeek_slot].
  simpl. eexists (Z.to_nat (todayIndex tz now)), _. split; [lia | ].
  apply array_set_in_range. simpl. lia.
Qed.

Lemma wellFormed_initial (now : Z) : wellFormed (initialSystem now).
Proof.
  repeat split; try discriminate; try reflexivity.
  - right. repeat split.
  - intros [x Hx]. discriminate.
  - apply zeroWeek_slot.
Qed.

Lemma None_not_Some {A} (o : option A) : is_Some o -> o = None -> False.
Proof. intros [x ->]. discriminate. Qed.

Lemma fire_wellFormed (tz : Z -> Z) (dp : string -> option Z)
    (e : event) (sys sys' : System) :
  wellFormed sys -> fire tz dp e sys = Some sys' -> wellFormed sys'.
Proof.
  unfold wellFormed.
  intros (Hst & Hoi & Hin0 & Hout0 & Hslot) Hfire.
  destruct e as [now | now | now | now | | rate]; simpl in Hfire.
  - destruct Hst as [Hst | (Hst & Hp)]; rewrite Hst in Hfire; simpl in Hfire.
    + destruct (normalizeStored dp (dataToStore (comp sys))) as [d | ] eqn:Hload;
        [ | discriminate].
      destruct (loadEffect dp d (initialState now)) as [c | ] eqn:Heff; [ | discriminate].
      injection Hfire as <-.
      destruct (mount_exact dp _ now d c Hload Heff)
        as (Ht & Hw & Hr & Hin & Hout & Hin' & Hout').
      simpl. split; [now left | ].
      split.
      { intros Hc. apply Hin', Hoi.
        destruct (clockOutTime (comp sys)) eqn:E; [eauto | ].
        exfalso. apply (None_not_Some _ Hc). now apply Hout. }
      split.
      { intros Hc. rewrite Ht. apply Hin0.
        destruct (clockInTime (comp sys)) eqn:E; [ | reflexivity].
        exfalso. apply (None_not_Some (clockInTime c)); [apply Hin'; eauto | exact Hc]. }
      split.
      { intros Hc. rewrite Hw. apply Hout0.
        destruct (clockOutTime (comp sys)) eqn:E; [ | reflexivity].
        exfalso. apply (None_not_Some (clockOutTime c)); [apply Hout'; eauto | exact Hc]. }
      now rewrite Hw.
    + injection Hfire as <-.
      destruct (wellFormed_initial now) as (_ & H2 & H3 & H4 & H5).
      split; [now left | ]. repeat split; assumption.
  - destruct (clockInDisabled tz (comp sys)) eqn:Hdis; [discriminate | ].
    injection Hfire as <-.
    assert (Hcin : clockInTime (comp sys) = None).
    { unfold clockInDisabled in Hdis.
      destruct (clockInTime (comp sys)); [discriminate | reflexivity]. }
    assert (Hcout : clockOutTime (comp sys) = None).
    { destruct (clockOutTime (comp sys)) eqn:E; [ | reflexivity].
      exfalso. apply (None_not_Some (clockInTime (comp sys))); [apply Hoi; eauto | exact Hcin]. }
    simpl. split; [now left | ].
    split; [intros [x Hx]; discriminate | ].
    split; [discriminate | ].
    split; [intros _; now apply Hout0 | exact Hslot].
  - destruct (clockOutDisabled (comp sys)) eqn:Hdis; [discriminate | ].
    injection Hfire as <-.
    unfold clockOutDisabled in Hdis.
    destruct (clockInTime (comp sys)) as [cin | ] eqn:Hcin; [ | discriminate].
    destruct (clockOutTime (comp sys)) as [cout | ] eqn:Hcout; [discriminate | ].
    simpl. split; [now left | ]. rewrite Hcin.
    split; [intros _; eauto | ].
    split; [discriminate | ].
    split; [discriminate | ].
    apply weeklyAfterClockOut_zeroWeek. now apply Hout0.
  - injection Hfire as <-. simpl.
    split; [ | repeat split; assumption].
    destruct Hst as [Hst | (Hst & Hp)]; [now left | now right].
  - destruct (activeSessionb (comp sys)) eqn:Hact; [ | discriminate].
    injection Hfire as <-.
    unfold activeSessionb in Hact.
    destruct (clockInTime (comp sys)) as [cin | ] eqn:Hcin; [ | discriminate].
    simpl. split; [now left | ]. rewrite Hcin.
    split; [intros _; eauto | ].
    split; [discriminate | ].
    split; assumption.
  - injection Hfire as <-. simpl.
    split; [now left | repeat split; assumption].
Qed.

Lemma run_wellFormed (tz : Z -> Z) (dp : string -> option Z)
    (es : list event) (sys sys' : System) :
  wellFormed sys -> run tz dp es sys = Some sys' -> wellFormed sys'.
Proof.
  revert sys. induction es as [ | e es IH]; intros sys Hwf; simpl.
  - now intros [= <-].
  - destruct (fire tz dp e sys) as [sys1 | ] eqn:Hfire; [ | discriminate].
    apply IH. eapply fire_wellFormed; eauto.
Qed.

Lemma reachable_wellFormed (tz : Z -> Z) (dp : string -> option Z) (sys : System) :
  reachable tz dp sys -> wellFormed sys.
Proof.
  intros (now & es & Hrun). eapply run_wellFormed; [ | exact Hrun].
  apply wellFormed_initial.
Qed.

(** X2.  In every reachable state a clock-out time comes with a clock-in
    time, and while no clock-in time is set there is no clock-out time, no
    second has been counted and no slot of the week has been written. *)
Theorem clockOut_needs_clockIn (tz : Z -> Z) (dp : string -> option Z)
    (sys : System) :
  reachable tz dp sys ->
  (is_Some (clockOutTime (comp sys)) -> is_Some (clockInTime (comp sys))) /\
  (clockInTime (comp sys) = None ->
     clockOutTime (comp sys) = None /\
     totalWorkedToday (comp sys) = 0 /\
     weeklyHours (comp sys) = zeroWeek).
Proof.
  intros Hr. destruct (reachable_wellFormed tz dp sys Hr) as (_ & Hoi & Hin0 & Hout0 & _).
  split; [exact Hoi | ]. intros Hnone.
  assert (Hcout : clockOutTime (comp sys) = None).
  { destruct (clockOutTime (comp sys)) eqn:E; [ | reflexivity].
    exfalso. apply (None_not_Some (clockInTime (comp sys))); [apply Hoi; eauto | exact Hnone]. }
  split; [exact Hcout | ]. split; [now apply Hin0 | now apply Hout0].
Qed.

Lemma clockOut_needs_clockIn_witness :
  is_Some (clockInTime (comp demoSystem)).
Proof.
  refine (proj1 (clockOut_needs_clockIn (fun _ => 0) Ref.Date_parse demoSystem _) _).
  - exists 0, demoEvents. vm_compute. reflexivity.
  - vm_compute. eexists. reflexivity.
Defined.

(** X3.  In every reachable state [weeklyHours] is five zeros with at most
    one slot, of index below 5, replaced; and it is five zeros as long as no
    clock-out time is set. *)
Theorem weeklyHours_one_slot (tz : Z -> Z) (dp : string -> option Z)
    (sys : System) :
  reachable tz dp sys ->
  (clockOutTime (comp sys) = None -> weeklyHours (comp sys) = zeroWeek) /\
  (exists (i : nat) (v : float),
     (i < 5)%nat /\ weeklyHours (comp sys) = <[i := v]> zeroWeek).
Proof.
  intros Hr. destruct (reachable_wellFormed tz dp sys Hr) as (_ & _ & _ & Hout0 & Hslot).
  split; assumption.
Qed.

Lemma weeklyHours_one_slot_witness :
  exists (i : nat) (v : float),
    (i < 5)%nat /\ weeklyHours (comp demoSystem) = <[i := v]> zeroWeek.
Proof.
  refine (proj2 (weeklyHours_one_slot (fun _ => 0) Ref.Date_parse demoSystem _)).
  exists 0, demoEvents. vm_compute. reflexivity.
Defined.

(** *** The worked-time counter *)

Lemma fire_total (tz : Z -> Z) (dp : string -> option Z)
    (e : event) (sys sys' : System) :
  wellFormed sys -> fire tz dp e sys = Some sys' ->
  totalWorkedToday (comp sys') = totalWorkedToday (comp sys) + workedTicks [e].
Proof.
  unfold wellFormed.
  intros (Hst & Hoi & Hin0 & Hout0 & Hslot) Hfire.
  destruct e as [now | now | now | now | | rate]; simpl in Hfire; simpl workedTicks.
  - destruct Hst as [Hst | (Hst & Hp)]; rewrite Hst in Hfire; simpl in Hfire.
    + destruct (normalizeStored dp (dataToStore (comp sys))) as [d | ] eqn:Hload;
        [ | discriminate].
      destruct (loadEffect dp d (initialState now)) as [c | ] eqn:Heff; [ | discriminate].
      injection Hfire as <-.
      destruct (mount_exact dp _ now d c Hload Heff) as (Ht & _). simpl. lia.
    + injection Hfire as <-. destruct Hp as (_ & _ & Ht & _). simpl. lia.
  - destruct (clockInDisabled tz (comp sys)) eqn:Hdis; [discriminate | ].
    injection Hfire as <-. simpl.
    unfold clockInDisabled in Hdis.
    destruct (clockInTime (comp sys)); [discriminate | ].
    rewrite Hin0 by reflexivity. reflexivity.
  - destruct (clockOutDisabled (comp sys)); [discriminate | ].
    injection Hfire as <-. simpl. lia.
  - injection Hfire as <-. simpl. lia.
  - destruct (activeSessionb (comp sys)); [ | discriminate].
    injection Hfire as <-. simpl. lia.
  - injection Hfire as <-. simpl. lia.
Qed.

Lemma workedTicks_cons (e : event) (es : list event) :
  workedTicks (e :: es) = workedTicks [e] + workedTicks es.
Proof. destruct e; simpl; lia. Qed.

Lemma run_total (tz : Z -> Z) (dp : string -> option Z)
    (es : list event) (sys sys' : System) :
  wellFormed sys -> run tz dp es sys = Some sys' ->
  totalWorkedToday (comp sys') = totalWorkedToday (comp sys) + workedTicks es.
Proof.
  revert sys. induction es as [ | e es IH]; intros sys Hwf; simpl run.
  - intros [= <-]. simpl. lia.
  - destruct (fire tz dp e sys) as [sys1 | ] eqn:Hfire; [ | discriminate].
    intros Hrun. rewrite workedTicks_cons.
    rewrite (IH sys1 (fire_wellFormed tz dp e sys sys1 Hwf Hfire) Hrun).
    rewrite (fire_total tz dp e sys sys1 Hwf Hfire). lia.
Qed.

Lemma workedTicks_nonneg (es : list event) : 0 <= workedTicks es.
Proof. induction es as [ | e es IH]; [simpl; lia | ]. destruct e; simpl; lia. Qed.

(** X4.  After any run of events from a first run, [totalWorkedToday] is the
    number of times the worked-time timer fired in the run; page loads, the
    clock-in itself, the clock-out and rate edits leave the count as it is.
    In particular it is never negative. *)
Theorem totalWorkedToday_counts_ticks (tz : Z -> Z) (dp : string -> option Z)
    (now : Z) (es : list event) (sys : System) :
  run tz dp es (initialSystem now) = Some sys ->
  totalWorkedToday (comp sys) = workedTicks es /\
  0 <= totalWorkedToday (comp sys).
Proof.
  intros Hrun.
  pose proof (run_total tz dp es _ _ (wellFormed_initial now) Hrun) as H.
  simpl in H. pose proof (workedTicks_nonneg es). lia.
Qed.

Lemma totalWorkedToday_counts_ticks_witness :
  totalWorkedToday (comp demoSystem) = 1.
Proof.
  refine (proj1 (totalWorkedToday_counts_ticks (fun _ => 0) Ref.Date_parse 0
                   demoEvents demoSystem _)).
  vm_compute. reflexivity.
Defined.

Lemma wellFormed_mirrored (sys : System) : wellFormed sys -> mirrored sys.
Proof.
  intros ([Hst | (Hst & Hin & Hout & _)] & _); [now left | now right].
Qed.

Lemma run_no_tick_after_clockOut (tz : Z -> Z) (dp : string -> option Z)
    (es : list event) (sys sys' : System) :
  wellFormed sys -> is_Some (clockOutTime (comp sys)) ->
  run tz dp es sys = Some sys' ->
  workedTicks es = 0.
Proof.
  revert sys. induction es as [ | e es IH]; intros sys Hwf Hout; simpl run.
  - reflexivity.
  - destruct (fire tz dp e sys) as [sys1 | ] eqn:Hfire; [ | discriminate].
    intros Hrun.
    assert (Hin : is_Some (clockInTime (comp sys))) by (now apply Hwf).
    destruct (fire_keeps_times tz dp e sys sys1 (wellFormed_mirrored _ Hwf) Hin Hfire)
      as [_ Hout1].
    rewrite workedTicks_cons.
    rewrite (IH sys1 (fire_wellFormed tz dp e sys sys1 Hwf Hfire) (Hout1 Hout) Hrun).
    destruct e; simpl; try reflexivity.
    simpl in Hfire. unfold activeSessionb in Hfire.
    destruct Hout as [t Ht]. rewrite Ht in Hfire.
    destruct (clockInTime (comp sys)); discriminate.
Qed.

(** X5.  Once a clock-out time is set in a reachable state, the worked-time
    timer never fires again: in every run that follows no worked tick occurs,
    a worked tick cannot fire in the state reached, and [totalWorkedToday] is
    what it was at the clock-out, across page loads too. *)
Theorem totalWorkedToday_frozen (tz : Z -> Z) (dp : string -> option Z)
    (sys sys' : System) (es : list event) :
  reachable tz dp sys ->
  is_Some (clockOutTime (comp sys)) ->
  run tz dp es sys = Some sys' ->
  workedTicks es = 0 /\
  fire tz dp WorkedTick sys' = None /\
  totalWorkedToday (comp sys') = totalWorkedToday (comp sys).
Proof.
  intros Hr Hout Hrun.
  pose proof (reachable_wellFormed tz dp sys Hr) as Hwf.
  pose proof (run_no_tick_after_clockOut tz dp es sys sys' Hwf Hout Hrun) as H0.
  split; [exact H0 | ]. split.
  - assert (Hin : is_Some (clockInTime (comp sys))) by (now apply Hwf).
    destruct (run_keeps_times tz dp es sys sys' (wellFormed_mirrored _ Hwf) Hin Hrun)
      as [_ Hout'].
    destruct (Hout' Hout) as [t Ht]. simpl. unfold activeSessionb. rewrite Ht.
    now destruct (clockInTime (comp sys')).
  - rewrite (run_total tz dp es sys sys' Hwf Hrun). lia.
Qed.

Lemma totalWorkedToday_frozen_witness :
  totalWorkedToday (comp demoSystem) = totalWorkedToday (comp demoEnded).
Proof.
  refine (proj2 (proj2 (totalWorkedToday_frozen (fun _ => 0) Ref.Date_parse
                          demoEnded demoSystem laterEvents _ _ _))).
  - exists 0, sessionEvents. vm_compute. reflexivity.
  - vm_compute. eexists. reflexivity.
  - vm_compute. reflexivity.
Defined.

(* ------------------------------------------------------------------------- *)
(** ** More on loading and saving *)

Lemma normalizeTime_cases (dp : string -> option Z) (ts : option string) :
  (normalizeTime dp ts = Js.Return None /\ (ts = None \/ ts = Some ""%string)) \/
  (exists str t, ts = Some str /\ str <> ""%string /\ dp str = Some t /\
                 normalizeTime dp ts = Js.Return (Some (Js.isoOfTime t))) \/
  (exists str, ts = Some str /\ str <> ""%string /\ dp str = None /\
               normalizeTime dp ts = Js.Throw Js.RangeError).
Proof.
  destruct ts as [str | ]; [ | left; split; [reflexivity | now left]].
  unfold normalizeTime. destruct (String.eqb_spec str "") as [-> | Hne].
  - left. split; [reflexivity | now right].
  - right. destruct (dp str) as [t | ] eqn:E.
    + left. exists str, t. repeat split; auto.
    + right. exists str. repeat split; auto.
Qed.

(** X6.  When the stored text parses to a record of the [StoredData] type,
    whose [clockInTime] and [clockOutTime] are each a string or null,
    [loadStoredData] raises a [RangeError] exactly when one of the two is a
    non-empty string that [Date.parse] does not read as a date; it does not
    raise a [SyntaxError]. *)
Theorem loadStoredData_invalid_date
    (JSON_parse : string -> option StoredData)
    (Date_parse : string -> option Z) (text : string) (data : StoredData) :
  text <> ""%string ->
  JSON_parse text = Some data ->
  (loadStoredData JSON_parse Date_parse true (Some text) = Js.Throw Js.RangeError <->
   exists str, (sd_clockInTime data = Some str \/ sd_clockOutTime data = Some str) /\
               str <> ""%string /\ Date_parse str = None) /\
  loadStoredData JSON_parse Date_parse true (Some text) <> Js.Throw Js.SyntaxError.
Proof.
  intros Hne Hparse. unfold loadStoredData. simpl negb. cbv iota.
  destruct (String.eqb_spec text "") as [E | _]; [contradiction | ].
  rewrite Hparse. unfold normalizeStored.
  destruct (normalizeTime_cases Date_parse (sd_clockInTime data))
    as [[Hin Hc] | [(s1 & t1 & Hc & Hn1 & Hd1 & Hin) | (s1 & Hc & Hn1 & Hd1 & Hin)]];
    rewrite Hin; simpl;
    destruct (normalizeTime_cases Date_parse (sd_clockOutTime data))
      as [[Hout Hc'] | [(s2 & t2 & Hc' & Hn2 & Hd2 & Hout) | (s2 & Hc' & Hn2 & Hd2 & Hout)]];
    try rewrite Hout; simpl; (split; [split | discriminate]);
    try discriminate; try (intros _; eauto 6; fail).
  all: intros (str & [H | H] & Hn & Hd); exfalso;
    repeat match goal with
           | H' : _ \/ _ |- _ => destruct H'
           end; congruence.
Qed.

Lemma loadStoredData_invalid_date_witness :
  loadStoredData Ref.JSON_parse Ref.Date_parse true
    (Some (Ref.JSON_stringify
             (mkStoredData (Some "yesterday"%string) None 0 zeroWeek 15)))
  = Js.Throw Js.RangeError.
Proof.
  refine (proj2 (proj1 (loadStoredData_invalid_date Ref.JSON_parse Ref.Date_parse
            (Ref.JSON_stringify (mkStoredData (Some "yesterday"%string) None 0 zeroWeek 15))
            (mkStoredData (Some "yesterday"%string) None 0 zeroWeek 15) _ _)) _).
  - vm_compute. discriminate.
  - vm_compute. reflexivity.
  - exists "yesterday"%string. split; [now left | ]. split; [discriminate | reflexivity].
Defined.

Lemma isoOfTime_injective (t1 t2 : Z) :
  Js.validTime t1 -> Js.validTime t2 ->
  Js.isoOfTime t1 = Js.isoOfTime t2 -> t1 = t2.
Proof.
  intros H1 H2 E.
  pose proof (Date_parse_isoOfTime t1 H1) as P1.
  pose proof (Date_parse_isoOfTime t2 H2) as P2.
  congruence.
Qed.

Lemma isoOrNull_injective (d1 d2 : option Z) :
  (forall t, d1 = Some t -> Js.validTime t) ->
  (forall t, d2 = Some t -> Js.validTime t) ->
  isoOrNull d1 = isoOrNull d2 -> d1 = d2.
Proof.
  intros V1 V2. destruct d1 as [t1 | ], d2 as [t2 | ];
    rewrite ?isoOrNull_Some; simpl; try discriminate; try reflexivity.
  intros [= E]. f_equal. apply isoOfTime_injective; auto.
Qed.

(** X8.  The record the save effect writes determines the persisted state:
    two states with valid timestamps that are saved as the same record have
    the same clock-in and clock-out times, to the millisecond, and the same
    counters; a set timestamp is never saved as null. *)
Theorem dataToStore_injective (s1 s2 : State) :
  validTimes s1 -> validTimes s2 ->
  dataToStore s1 = dataToStore s2 ->
  clockInTime s1 = clockInTime s2 /\
  clockOutTime s1 = clockOutTime s2 /\
  totalWorkedToday s1 = totalWorkedToday s2 /\
  weeklyHours s1 = weeklyHours s2 /\
  hourlyRate s1 = hourlyRate s2.
Proof.
  intros V1 V2 E. unfold dataToStore in E. injection E as Ein Eout Et Ew Er.
  repeat split; try assumption.
  - apply isoOrNull_injective;
      [intros t Ht; apply V1; tauto | intros t Ht; apply V2; tauto | assumption].
  - apply isoOrNull_injective;
      [intros t Ht; apply V1; tauto | intros t Ht; apply V2; tauto | assumption].
Qed.

Lemma dataToStore_injective_witness :
  clockInTime (comp demoSystem) = clockInTime (displayTick 5 (comp demoSystem)).
Proof.
  refine (proj1 (dataToStore_injective (comp demoSystem)
                   (displayTick 5 (comp demoSystem)) _ _ _)).
  - intros t [H | H]; vm_compute in H; injection H as <-; vm_compute;
      split; discriminate.
  - intros t [H | H]; vm_compute in H; injection H as <-; vm_compute;
      split; discriminate.
  - vm_compute. reflexivity.
Defined.


Lemma parseAfterYear_valid (y : Z) (rest : string) (t : Z) :
  Ref.parseAfterYear y rest = Some t -> Js.validTime t.
Proof.
  unfold Ref.parseAfterYear.
  destruct (_ && _); [ | discriminate].
  destruct (Ref.fieldAt rest 1 2) as [mo | ]; [ | discriminate].
  destruct (Ref.fieldAt rest 4 2) as [d | ]; [ | discriminate].
  destruct (Ref.fieldAt rest 7 2) as [h | ]; [ | discriminate].
  destruct (Ref.fieldAt rest 10 2) as [mi | ]; [ | discriminate].
  destruct (Ref.fieldAt rest 13 2) as [sec | ]; [ | discriminate].
  destruct (Ref.fieldAt rest 16 3) as [ms | ]; [ | discriminate].
  cbv zeta.
  match goal with |- (if ?c then _ else _) = _ -> _ => destruct c eqn:Hc end;
    [ | discriminate].
  intros [= <-]. rewrite !andb_true_iff in Hc.
  destruct Hc as [[_ Hlo] Hhi]. apply Z.leb_le in Hlo, Hhi.
  split; assumption.
Qed.

Lemma Date_parse_valid (str : string) (t : Z) :
  Ref.Date_parse str = Some t -> Js.validTime t.
Proof.
  unfold Ref.Date_parse. intros H.
  repeat match type of H with
         | context [match ?x with _ => _ end] => destruct x eqn:?; try discriminate
         end;
    eauto using parseAfterYear_valid.
Qed.

(** X9.  Loading is stable on its own result: when [Date.parse] reads back
    the ISO string of every time it returns, a record that [loadStoredData]
    returned is returned unchanged when it is what the stored text parses
    to. *)
Theorem loadStoredData_stable
    (JSON_parse : string -> option StoredData)
    (Date_parse : string -> option Z)
    (cell : option string) (d : StoredData) (text' : string) :
  (forall str t, Date_parse str = Some t -> Date_parse (Js.isoOfTime t) = Some t) ->
  loadStoredData JSON_parse Date_parse true cell = Js.Return d ->
  text' <> ""%string ->
  JSON_parse text' = Some d ->
  loadStoredData JSON_parse Date_parse true (Some text') = Js.Return d.
Proof.
  intros Hlaw Hload Hne Hparse.
  assert (Hnorm : normalizeStored Date_parse d = Js.Return d).
  { revert Hload. unfold loadStoredData. simpl negb. cbv iota.
    destruct cell as [text | ]; [ | now intros [= <-]].
    destruct (String.eqb text ""); [now intros [= <-] | ].
    destruct (JSON_parse text) as [data | ]; [ | discriminate].
    unfold normalizeStored.
    destruct (normalizeTime_cases Date_parse (sd_clockInTime data))
      as [[Hin Hc] | [(s1 & t1 & Hc & Hn1 & Hd1 & Hin) | (s1 & Hc & Hn1 & Hd1 & Hin)]];
      rewrite Hin; simpl; try discriminate;
      destruct (normalizeTime_cases Date_parse (sd_clockOutTime data))
        as [[Hout Hc'] | [(s2 & t2 & Hc' & Hn2 & Hd2 & Hout) | (s2 & Hc' & Hn2 & Hd2 & Hout)]];
      rewrite Hout; simpl; try discriminate;
      intros [= <-]; simpl;
      unfold normalizeTime; rewrite ?isoOfTime_nonempty;
      rewrite ?(Hlaw _ _ Hd1), ?(Hlaw _ _ Hd2); reflexivity. }
  unfold loadStoredData. simpl negb. cbv iota.
  destruct (String.eqb_spec text' "") as [E | _]; [contradiction | ].
  now rewrite Hparse.
Qed.

Lemma loadStoredData_stable_witness :
  loadStoredData Ref.JSON_parse Ref.Date_parse true
    (Some (Ref.JSON_stringify
             (mkStoredData None (Some "1970-01-01T00:00:01.000Z"%string) 7 zeroWeek 15)))
  = Js.Return (mkStoredData None (Some "1970-01-01T00:00:01.000Z"%string) 7 zeroWeek 15).
Proof.
  apply (loadStoredData_stable Ref.JSON_parse Ref.Date_parse
           (Some (Ref.JSON_stringify
             (mkStoredData (Some ""%string) (Some "1970-01-01T00:00:01.000Z"%string)
                7 zeroWeek 15)))).
  - intros str t Ht. apply Date_parse_isoOfTime. exact (Date_parse_valid str t Ht).
  - vm_compute. reflexivity.
  - vm_compute. discriminate.
  - vm_compute. reflexivity.
Defined.

(* ------------------------------------------------------------------------- *)
(** ** What is rendered *)

Lemma toFixed_roundsTo (x : float) (v : Q) :
  floatMagnitude x = Some v ->
  (v < inject_Z (10 ^ 21))%Q ->
  roundsTo x (Js.toFixed 2 x).
Proof.
  intros Hv Hsmall. unfold roundsTo, Js.toFixed, floatMagnitude, floatSign in *.
  destruct (Prim2SF x) as [z | i | | sign m e]; try discriminate.
  - injection Hv as <-.
    destruct (fixedDigits_two 0 ltac:(lia)) as (ip & fp & Heq & Hlen & Hip & Hfp).
    exists ip, fp, 0, 0. rewrite Heq. repeat split; try assumption.
    intros v [= <-]. discriminate.
  - injection Hv as <-.
    rewrite (below_1e21 m e Hsmall).
    pose proof (nearestScaled_nonneg m e) as Hn.
    destruct (fixedDigits_two _ Hn) as (ip & fp & Heq & Hlen & Hip & Hfp).
    exists ip, fp, (Js.nearestScaled 2 m e / 100), (Js.nearestScaled 2 m e mod 100).
    rewrite Heq. repeat split; try assumption.
    intros v [= <-]. apply nearestScaled_close. apply Z.div_mod. lia.
Qed.

(** X10.  When the amount [totalWorkedToday / 3600 * hourlyRate] is finite
    and below 10^21 in magnitude, the daily earnings displayed are that
    amount with two decimals, within half a hundredth of it. *)
Theorem dailyEarnings_rounded (s : State) (v : Q) :
  floatMagnitude (dailyAmount s) = Some v ->
  (v < inject_Z (10 ^ 21))%Q ->
  roundsTo (dailyAmount s) (calculateDailyEarnings s).
Proof. intros Hv Hsmall. now apply (toFixed_roundsTo _ v). Qed.

(** Two hours at 12.5 an hour. *)
Lemma dailyEarnings_rounded_witness :
  roundsTo (dailyAmount (mkState 0 (Some 0) None 7200 zeroWeek 12.5))
           (calculateDailyEarnings (mkState 0 (Some 0) None 7200 zeroWeek 12.5)).
Proof.
  apply (dailyEarnings_rounded (mkState 0 (Some 0) None 7200 zeroWeek 12.5)
           (7036874417766400 # 281474976710656)).
  - vm_compute. reflexivity.
  - vm_compute. reflexivity.
Defined.

Example dailyEarnings_two_hours :
  calculateDailyEarnings (mkState 0 (Some 0) None 7200 zeroWeek 12.5)
  = Some "25.00"%string.
Proof. vm_compute. reflexivity. Qed.

(** X11.  With no second counted and a finite hourly rate, the daily
    earnings displayed are 0.00, whatever the rate and its sign; this is the
    display right after a clock-in. *)
Theorem dailyEarnings_zero (s : State) :
  totalWorkedToday s = 0 ->
  is_Some (floatMagnitude (hourlyRate s)) ->
  calculateDailyEarnings s = Some "0.00"%string /\
  forall now, calculateDailyEarnings (handleClockIn now s) = Some "0.00"%string.
Proof.
  intros Ht [v Hv].
  assert (H : forall total, total = 0 ->
              Js.toFixed 2 (Js.float_of_Z total / 3600 * hourlyRate s)%float
              = Some "0.00"%string).
  { intros total ->.
    change (Js.float_of_Z 0 / 3600)%float with 0%float.
    unfold Js.toFixed. rewrite mul_spec.
    unfold floatMagnitude in Hv.
    destruct (Prim2SF (hourlyRate s)) as [z | i | | sign m e]; try discriminate;
      reflexivity. }
  split; [unfold calculateDailyEarnings, dailyAmount; now apply H | ].
  intros now. exact (H 0 eq_refl).
Qed.

Lemma dailyEarnings_zero_witness :
  calculateDailyEarnings (handleClockIn 378000000 (fullWeek (-12.5)))
  = Some "0.00"%string.
Proof.
  refine (proj2 (dailyEarnings_zero (fullWeek (-12.5)) _ _) 378000000).
  - reflexivity.
  - vm_compute. eexists. reflexivity.
Defined.

(** X12.  A column of the weekly summary whose hours and whose amount
    [hours * hourlyRate] are finite and below 10^21 shows both with two
    decimals, each within half a hundredth of the number. *)
Theorem summaryCell_rounded (s : State) (day : string) (index : nat)
    (hours : float) (vh vm : Q) :
  weeklyHours s !! index = Some hours ->
  floatMagnitude hours = Some vh ->
  (vh < inject_Z (10 ^ 21))%Q ->
  floatMagnitude (hours * hourlyRate s)%float = Some vm ->
  (vm < inject_Z (10 ^ 21))%Q ->
  exists hoursText amountText,
    summaryCell s day index = Some (day, hoursText, amountText) /\
    roundsTo hours hoursText /\
    roundsTo (hours * hourlyRate s)%float amountText.
Proof.
  intros Hl Hh Hhs Hm Hms. unfold summaryCell. rewrite Hl.
  eexists _, _. split; [reflexivity | ].
  split; [now apply (toFixed_roundsTo _ vh) | now apply (toFixed_roundsTo _ vm)].
Qed.

Lemma summaryCell_rounded_witness :
  exists hoursText amountText,
    summaryCell (comp demoSystem) "Mon" 0 = Some ("Mon"%string, hoursText, amountText) /\
    roundsTo 8 hoursText /\
    roundsTo (8 * hourlyRate (comp demoSystem))%float amountText.
Proof.
  apply (summaryCell_rounded (comp demoSystem) "Mon" 0 8
           (4503599627370496 # 562949953421312)
           (5629499534213120 # 35184372088832)).
  - vm_compute. reflexivity.
  - vm_compute. reflexivity.
  - vm_compute. reflexivity.
  - vm_compute. reflexivity.
  - vm_compute. reflexivity.
Defined.

Example summary_demo :
  weeklySummary (comp demoSystem)
  = Some [("Mon", Some "8.00", Some "160.00"); ("Tue", Some "0.00", Some "0.00");
          ("Wed", Some "0.00", Some "0.00"); ("Thu", Some "0.00", Some "0.00");
          ("Fri", Some "0.00", Some "0.00")]%string.
Proof. vm_compute. reflexivity. Qed.

Lemma summaryFrom_labels (s : State) (days : list string) (index : nat)
    (cells : list (string * option string * option string)) :
  summaryFrom s days index = Some cells -> map (fun c => fst (fst c)) cells = days.
Proof.
  revert index cells. induction days as [ | day days IH]; intros index cells; simpl.
  - now intros [= <-].
  - unfold summaryCell. destruct (weeklyHours s !! index); [ | discriminate].
    destruct (summaryFrom s days (S index)) as [cs | ] eqn:E; [ | discriminate].
    intros [= <-]. simpl. f_equal. now apply (IH (S index)).
Qed.

Lemma summaryFrom_defined (s : State) (days : list string) (index : nat) :
  (index + length days <= length (weeklyHours s))%nat ->
  is_Some (summaryFrom s days index).
Proof.
  revert index. induction days as [ | day days IH]; intros index Hlen; simpl.
  - eauto.
  - simpl in Hlen. unfold summaryCell.
    destruct (lookup_lt_is_Some_2 (weeklyHours s) index ltac:(lia)) as [h ->].
    destruct (IH (S index) ltac:(lia)) as [cs ->]. eauto.
Qed.

Lemma summaryFrom_short (s : State) (days : list string) (index : nat) :
  (index <= length (weeklyHours s) < index + length days)%nat ->
  summaryFrom s days index = None.
Proof.
  revert index. induction days as [ | day days IH]; intros index Hlen; simpl in *.
  - lia.
  - unfold summaryCell.
    destruct (weeklyHours s !! index) as [h | ] eqn:E; [ | reflexivity].
    apply lookup_lt_Some in E.
    rewrite (IH (S index)) by lia. reflexivity.
Qed.

(** X13.  The weekly summary renders exactly when [weeklyHours] has at least
    five entries, and then it has the five columns Mon to Fri in order; with
    fewer entries a column reads [undefined] and the render fails. *)
Theorem weeklySummary_defined_iff (s : State) :
  (is_Some (weeklySummary s) <-> (5 <= length (weeklyHours s))%nat) /\
  (forall cells, weeklySummary s = Some cells ->
     map (fun c => fst (fst c)) cells = dayLabels /\ length cells = 5%nat).
Proof.
  unfold weeklySummary. split.
  - split.
    + intros [cells Hc].
      destruct (Nat.le_gt_cases 5 (length (weeklyHours s))) as [H | H]; [exact H | ].
      rewrite summaryFrom_short in Hc by (simpl; lia). discriminate.
    + intros H. apply summaryFrom_defined. simpl. lia.
  - intros cells Hc. pose proof (summaryFrom_labels _ _ _ _ Hc) as Hl.
    split; [exact Hl | ].
    rewrite <- (length_map (fun c => fst (fst c))), Hl. reflexivity.
Qed.

(** X14.  In every reachable state the weekly summary renders, with its
    five columns. *)
Theorem weeklySummary_renders (tz : Z -> Z) (dp : string -> option Z)
    (sys : System) :
  reachable tz dp sys ->
  exists cells, weeklySummary (comp sys) = Some cells /\ length cells = 5%nat.
Proof.
  intros (now & es & Hrun).
  assert (Hinv : fiveEntries sys).
  { eapply run_fiveEntries; [ | exact Hrun]. split; [reflexivity | discriminate]. }
  destruct Hinv as [Hlen _].
  destruct (summaryFrom_defined (comp sys) dayLabels 0) as [cells Hc];
    [simpl; lia | ].
  exists cells. split; [exact Hc | ].
  pose proof (summaryFrom_labels _ _ _ _ Hc) as Hl.
  rewrite <- (length_map (fun c => fst (fst c))), Hl. reflexivity.
Qed.

Lemma weeklySummary_renders_witness :
  exists cells, weeklySummary (comp demoSystem) = Some cells /\ length cells = 5%nat.
Proof.
  apply (weeklySummary_renders (fun _ => 0) Ref.Date_parse demoSystem).
  exists 0, demoEvents. vm_compute. reflexivity.
Defined.

(* ------------------------------------------------------------------------- *)
(** ** Status, timer and buttons *)

(** X15.  In every state: the two buttons are never enabled together; the
    Clock Out button is enabled exactly when the status reads At Work, which
    is exactly when the worked-time timer can fire; and while the status
    reads At Work a clock-in cannot fire. *)
Theorem controls_agree (tz : Z -> Z) (dp : string -> option Z) (sys : System) :
  (clockInDisabled tz (comp sys) = true \/ clockOutDisabled (comp sys) = true) /\
  (clockOutDisabled (comp sys) = false <-> statusText (comp sys) = "At Work"%string) /\
  (statusText (comp sys) = "At Work"%string <-> is_Some (fire tz dp WorkedTick sys)) /\
  (is_Some (fire tz dp (ClockOut 0) sys) <-> is_Some (fire tz dp WorkedTick sys)) /\
  (statusText (comp sys) = "At Work"%string -> forall now, fire tz dp (ClockIn now) sys = None).
Proof.
  unfold clockInDisabled, clockOutDisabled, statusText, activeSessionb. simpl.
  unfold clockInDisabled, clockOutDisabled, activeSessionb.
  destruct (clockInTime (comp sys)) as [cin | ], (clockOutTime (comp sys)) as [cout | ];
    simpl; repeat split; try discriminate; eauto;
    try (intros [x Hx]; discriminate); try (intros; reflexivity).
Qed.

(* ------------------------------------------------------------------------- *)
(** ** The avatar fallback *)

Lemma split_word_starts (name : string) :
  exists piece pieces,
    split " " name = piece :: pieces /\
    join (map firstChar (piece :: pieces)) = wordStarts true name /\
    join (map firstChar pieces) = wordStarts false name.
Proof.
  induction name as [ | c rest (piece & pieces & Hs & Ht & Hf)].
  - exists EmptyString, []. repeat split.
  - cbn [split wordStarts]. rewrite Hs.
    destruct (Ascii.eqb c " ").
    + exists EmptyString, (piece :: pieces). split; [reflexivity | ].
      split; [exact Ht | exact Ht].
    + exists (String c piece), pieces. split; [reflexivity | ].
      split; [simpl; now rewrite Hf | exact Hf].
Qed.

Lemma wordStarts_no_space (atStart : bool) (name : string) (c : ascii) :
  In c (list_ascii_of_string (wordStarts atStart name)) -> c <> " "%char.
Proof.
  revert atStart. induction name as [ | a rest IH]; intros atStart; simpl; [tauto | ].
  destruct (Ascii.eqb_spec a " ") as [-> | Hne]; [apply IH | ].
  destruct atStart; [ | apply IH].
  simpl. intros [<- | H]; [exact Hne | now apply (IH false)].
Qed.

Lemma wordStarts_trailing_space (atStart : bool) (name : string) :
  wordStarts atStart (name ++ " ") = wordStarts atStart name.
Proof.
  revert atStart. induction name as [ | a rest IH]; intros atStart; simpl;
    [reflexivity | ].
  destruct (Ascii.eqb a " "); [apply IH | ].
  destruct atStart; [f_equal | ]; apply IH.
Qed.

(** X16.  The avatar fallback is made of the characters of the name that
    start a word: those that are not a space and that come first or right
    after a space, in order.  It contains no space, and runs of spaces, a
    leading or a trailing space add nothing. *)
Theorem initials_word_starts (name : string) :
  initials name = wordStarts true name /\
  (forall c, In c (list_ascii_of_string (initials name)) -> c <> " "%char) /\
  initials (" " ++ name) = initials name /\
  initials (name ++ " ") = initials name.
Proof.
  assert (H : forall n, initials n = wordStarts true n).
  { intros n. unfold initials.
    destruct (split_word_starts n) as (piece & pieces & -> & Ht & _). exact Ht. }
  split; [apply H | ].
  split; [intros c; rewrite H; apply wordStarts_no_space | ].
  split; [rewrite !H; reflexivity | ].
  rewrite !H. apply wordStarts_trailing_space.
Qed.

Example initials_employee : initials "Temuulen Undrakhbayar" = "TU"%string.
Proof. reflexivity. Qed.

Example initials_spaces : initials "  Ada   Lovelace " = "AL"%string.
Proof. reflexivity. Qed.

(* ------------------------------------------------------------------------- *)
(** ** One session *)

Lemma run_no_clockIn_when_set (tz : Z -> Z) (dp : string -> option Z)
    (es : list event) (sys sys' : System) :
  wellFormed sys -> is_Some (clockInTime (comp sys)) ->
  run tz dp es sys = Some sys' -> clockIns es = 0%nat.
Proof.
  revert sys. induction es as [ | e es IH]; intros sys Hwf Hin; simpl run.
  - reflexivity.
  - destruct (fire tz dp e sys) as [sys1 | ] eqn:Hfire; [ | discriminate].
    intros Hrun.
    destruct (fire_keeps_times tz dp e sys sys1 (wellFormed_mirrored _ Hwf) Hin Hfire)
      as [Hin1 _].
    pose proof (IH sys1 (fire_wellFormed tz dp e sys sys1 Hwf Hfire) Hin1 Hrun) as H0.
    destruct e; simpl; try exact H0.
    simpl in Hfire. rewrite (clockInDisabled_when_set tz _ Hin) in Hfire. discriminate.
Qed.

Lemma run_no_clockOut_when_set (tz : Z -> Z) (dp : string -> option Z)
    (es : list event) (sys sys' : System) :
  wellFormed sys -> is_Some (clockOutTime (comp sys)) ->
  run tz dp es sys = Some sys' -> clockOuts es = 0%nat.
Proof.
  revert sys. induction es as [ | e es IH]; intros sys Hwf Hout; simpl run.
  - reflexivity.
  - destruct (fire tz dp e sys) as [sys1 | ] eqn:Hfire; [ | discriminate].
    intros Hrun.
    assert (Hin : is_Some (clockInTime (comp sys))) by (now apply Hwf).
    destruct (fire_keeps_times tz dp e sys sys1 (wellFormed_mirrored _ Hwf) Hin Hfire)
      as [_ Hout1].
    pose proof (IH sys1 (fire_wellFormed tz dp e sys sys1 Hwf Hfire) (Hout1 Hout) Hrun)
      as H0.
    destruct e; simpl; try exact H0.
    simpl in Hfire. unfold clockOutDisabled in Hfire.
    destruct Hout as [t Ht]. rewrite Ht in Hfire.
    destruct (clockInTime (comp sys)); discriminate.
Qed.

Lemma run_one_session (tz : Z -> Z) (dp : string -> option Z)
    (es : list event) (sys sys' : System) :
  wellFormed sys -> run tz dp es sys = Some sys' ->
  (clockIns es <= 1)%nat /\ (clockOuts es <= 1)%nat.
Proof.
  revert sys. induction es as [ | e es IH]; intros sys Hwf; simpl run.
  - intros _. simpl. lia.
  - destruct (fire tz dp e sys) as [sys1 | ] eqn:Hfire; [ | discriminate].
    intros Hrun.
    pose proof (fire_wellFormed tz dp e sys sys1 Hwf Hfire) as Hwf1.
    destruct (IH sys1 Hwf1 Hrun) as [Hi Ho].
    destruct e as [now | now | now | now | | rate]; simpl; try (split; assumption).
    + split; [ | exact Ho].
      rewrite (run_no_clockIn_when_set tz dp es sys1 sys' Hwf1); [lia | | exact Hrun].
      simpl in Hfire. destruct (clockInDisabled tz (comp sys)); [discriminate | ].
      injection Hfire as <-. simpl. eauto.
    + split; [exact Hi | ].
      rewrite (run_no_clockOut_when_set tz dp es sys1 sys' Hwf1); [lia | | exact Hrun].
      simpl in Hfire. destruct (clockOutDisabled (comp sys)); [discriminate | ].
      injection Hfire as <-. simpl. eauto.
Qed.

(** X17.  In any run of events from a first run, page loads included, at
    most one clock-in and at most one clock-out fire. *)
Theorem one_session_per_run (tz : Z -> Z) (dp : string -> option Z)
    (now : Z) (es : list event) (sys : System) :
  run tz dp es (initialSystem now) = Some sys ->
  (clockIns es <= 1)%nat /\ (clockOuts es <= 1)%nat.
Proof. apply run_one_session, wellFormed_initial. Qed.

Lemma one_session_per_run_witness :
  (clockIns demoEvents <= 1)%nat /\ (clockOuts demoEvents <= 1)%nat.
Proof.
  apply (one_session_per_run (fun _ => 0) Ref.Date_parse 0 demoEvents demoSystem).
  vm_compute. reflexivity.
Defined.

(** X18.  A clock-out on Monday to Friday at or after the clock-in records
    whole seconds only: the slot holds [k / 3600] for the number [k] of full
    seconds elapsed, so a session shorter than one second records 0 hours. *)
Theorem clockOut_whole_seconds (tz : Z -> Z) (now cin : Z) (s : State) :
  clockInTime s = Some cin ->
  1 <= Js.getDay tz now <= 5 ->
  cin <= now ->
  exists k : Z,
    1000 * k <= now - cin < 1000 * (k + 1) /\
    weeklyHours (handleClockOut tz now s) !! Z.to_nat (Js.getDay tz now - 1)
      = Some (Js.float_of_Z k / 3600)%float /\
    (now - cin < 1000 ->
     weeklyHours (handleClockOut tz now s) !! Z.to_nat (Js.getDay tz now - 1)
       = Some 0%float).
Proof.
  intros Hcin Hday Hle. exists (Js.differenceInSeconds now cin).
  unfold Js.differenceInSeconds.
  rewrite Z.quot_div_nonneg by lia.
  split; [Z.div_mod_to_equations; lia | ].
  assert (Hslot : weeklyHours (handleClockOut tz now s) !! Z.to_nat (Js.getDay tz now - 1)
                  = Some (Js.float_of_Z ((now - cin) / 1000) / 3600)%float).
  { simpl. rewrite (weeklyAfterClockOut_weekday tz now cin s Hcin Hday).
    unfold Js.differenceInSeconds. rewrite Z.quot_div_nonneg by lia.
    apply array_set_lookup. }
  split; [exact Hslot | ].
  intros Hshort. rewrite Hslot.
  replace ((now - cin) / 1000) with 0 by (Z.div_mod_to_equations; lia).
  reflexivity.
Qed.

Lemma clockOut_whole_seconds_witness :
  weeklyHours (handleClockOut (fun _ => 0) 378000999
                 (handleClockIn 378000000 (initialState 0))) !! 0%nat
  = Some 0%float.
Proof.
  destruct (clockOut_whole_seconds (fun _ => 0) 378000999 378000000
              (handleClockIn 378000000 (initialState 0)))
    as (k & _ & _ & H).
  - reflexivity.
  - vm_compute. split; discriminate.
  - vm_compute. discriminate.
  - apply H. reflexivity.
Defined.
